(** * Web Bot Auth validation flow: directory resolver and signature verifier

    A shallow embedding of [webBotAuth/validation/lib/directory.ts] and
    [webBotAuth/validation/lib/signature.ts], and the properties of the
    two-stage verification protocol proved about it. *)

From stdpp Require Import gmap strings list pretty.
From Stdlib Require Import ZArith Ascii String.

Local Open Scope string_scope.
Local Open Scope Z_scope.

(** ** JavaScript values

    [response.json()] yields an arbitrary JSON value and the code inspects
    it dynamically ([typeof], truthiness, property reads), so the model keeps
    JSON values as they are.  An absent property ([undefined]) is [None].
    The code never looks at the magnitude of a JSON number, only at its type
    and (in one error message) its rendering, so numbers are integers. *)

#[warnings="-register-all"]
Inductive Json : Type :=
  | JNull
  | JBool (b : bool)
  | JNumber (n : Z)
  | JString (s : string)
  | JArray (items : list Json)
  | JObject (fields : list (string * Json)).

(** The double quote character, for messages that contain one. *)
Definition dq : string := String (ascii_of_nat 34) EmptyString.

(** Own-property read on a parsed object (the first binding of a name is the
    property; [JSON.parse] leaves one binding per name). *)
Fixpoint assoc (name : string) (fields : list (string * Json)) : option Json :=
  match fields with
  | [] => None
  | (k, v) :: rest => if String.eqb k name then Some v else assoc name rest
  end.

(** [v.name] for the property names the code reads on values that passed its
    [typeof v === "object"] test: objects answer with their own property,
    arrays have none of [kty], [crv], [x], [kid], [nbf], [exp], [purpose]. *)
Definition prop (v : Json) (name : string) : option Json :=
  match v with
  | JObject fields => assoc name fields
  | _ => None
  end.

(** JavaScript truthiness, [!!v]. *)
Definition truthy (v : option Json) : bool :=
  match v with
  | None | Some JNull => false
  | Some (JBool b) => b
  | Some (JNumber n) => negb (n =? 0)
  | Some (JString s) => negb (String.eqb s EmptyString)
  | Some (JArray _) | Some (JObject _) => true
  end.

(** [typeof v === "object"] ([null], arrays and objects). *)
Definition typeof_object (v : option Json) : bool :=
  match v with
  | Some JNull | Some (JArray _) | Some (JObject _) => true
  | _ => false
  end.

(** [v !== undefined]. *)
Definition defined (v : option Json) : bool :=
  match v with None => false | Some _ => true end.

(** [typeof v === "string"] and [typeof v === "number"]. *)
Definition typeof_string (v : option Json) : bool :=
  match v with Some (JString _) => true | _ => false end.

Definition typeof_number (v : option Json) : bool :=
  match v with Some (JNumber _) => true | _ => false end.

(** [v === s] for a string [s]. *)
Definition strict_eq_string (v : option Json) (s : string) : bool :=
  match v with Some (JString t) => String.eqb t s | _ => false end.

(** [Array.prototype.join(",")] over already rendered elements. *)
Fixpoint join_comma (parts : list string) : string :=
  match parts with
  | [] => EmptyString
  | [p] => p
  | p :: rest => p +:+ "," +:+ join_comma rest
  end.

Definition template_string (v : option string) : string :=
  match v with None => "undefined" | Some s => s end.

(** ** Structure validation ([directory.ts]) *)

(** The anonymous result type [{ isValid: boolean; error?: string }]. *)
Module StructureCheck.
Record t : Type := mk { isValid : bool; error : option string }.
Definition ok : t := mk true None.
Definition fail (msg : string) : t := mk false (Some msg).
End StructureCheck.

Definition validateJWK (key : Json) : StructureCheck.t :=
  if negb (truthy (Some key)) || negb (typeof_object (Some key)) then
    StructureCheck.fail "Key is not an object"
  else if negb (strict_eq_string (prop key "kty") "OKP") then
    StructureCheck.fail ("Key type must be " +:+ dq +:+ "OKP" +:+ dq +:+ " for Ed25519")
  else if negb (strict_eq_string (prop key "crv") "Ed25519") then
    StructureCheck.fail ("Curve must be " +:+ dq +:+ "Ed25519" +:+ dq)
  else if negb (truthy (prop key "x")) || negb (typeof_string (prop key "x")) then
    StructureCheck.fail ("Missing or invalid " +:+ dq +:+ "x" +:+ dq +:+ " coordinate")
  else if negb (truthy (prop key "kid")) || negb (typeof_string (prop key "kid")) then
    StructureCheck.fail ("Missing or invalid " +:+ dq +:+ "kid" +:+ dq +:+ " (Key ID)")
  else if defined (prop key "nbf") && negb (typeof_number (prop key "nbf")) then
    StructureCheck.fail ("Invalid " +:+ dq +:+ "nbf" +:+ dq +:+ " (Not Before) timestamp")
  else if defined (prop key "exp") && negb (typeof_number (prop key "exp")) then
    StructureCheck.fail ("Invalid " +:+ dq +:+ "exp" +:+ dq +:+ " (Expiration) timestamp")
  else StructureCheck.ok.

(** The [for] loop of [validateDirectoryStructure], from index [i] on. *)
Fixpoint validateKeys (i : nat) (keys : list Json) : StructureCheck.t :=
  match keys with
  | [] => StructureCheck.ok
  | key :: rest =>
      let keyValidation := validateJWK key in
      if negb (StructureCheck.isValid keyValidation) then
        StructureCheck.fail ("Invalid key at index " +:+ pretty i +:+ ": "
                    +:+ template_string (StructureCheck.error keyValidation))
      else validateKeys (S i) rest
  end.

Definition validateDirectoryStructure (data : Json) : StructureCheck.t :=
  if negb (truthy (Some data)) || negb (typeof_object (Some data)) then
    StructureCheck.fail "Directory data is not an object"
  else
    match data with
    | JObject fields =>
        match assoc "keys" fields with
        | Some (JArray keys) =>
            if (List.length keys =? 0)%nat then StructureCheck.fail "Directory keys array cannot be empty"
            else validateKeys 0 keys
        | _ => StructureCheck.fail ("Directory must contain a " +:+ dq +:+ "keys" +:+ dq +:+ " array")
        end
    | _ =>
        (* on an array, [data.keys] is [Array.prototype.keys], a function *)
        StructureCheck.fail ("Directory must contain a " +:+ dq +:+ "keys" +:+ dq +:+ " array")
    end.

(** ** Results, exceptions and the mutable world *)

(** What evaluating a JavaScript expression gives: a value, or a thrown
    [Error] (kept as its [message]). *)
Inductive outcome (A : Type) : Type :=
  | Ret (a : A)
  | Throw (message : string).
Arguments Ret {A} a.
Arguments Throw {A} message.

(** [s] without its trailing zero digits. *)
Fixpoint strip_trailing_zeros (s : string) : string :=
  match s with
  | EmptyString => EmptyString
  | String c rest =>
      match strip_trailing_zeros rest with
      | EmptyString => if Ascii.eqb c "0" then EmptyString else String c EmptyString
      | kept => String c kept
      end
  end.

(** [String(n)] for a number: plain decimal digits below 10^21 in magnitude,
    and from there on the exponential form [d.ddde+XX] of its significant
    digits.  This is what JavaScript prints for the integers the model holds:
    those within the safe range of a double, or written with at most 15
    significant digits. *)
Definition number_to_string (n : Z) : string :=
  if Z.abs n <? 1000000000000000000000 then pretty n
  else
    let digits := pretty (Z.abs n) in
    let exponent := pretty (String.length digits - 1)%nat in
    let sign := if n <? 0 then "-" else EmptyString in
    match strip_trailing_zeros digits with
    | EmptyString => "0"
    | String d EmptyString => sign +:+ String d EmptyString +:+ "e+" +:+ exponent
    | String d more => sign +:+ String d EmptyString +:+ "." +:+ more +:+ "e+" +:+ exponent
    end.

(** The elements of an array as [Array.prototype.join] renders them, left to
    right: [null] as nothing, any other element through [render]; the first
    throw ends the rendering. *)
Fixpoint render_parts (render : Json -> outcome string) (items : list Json)
  : outcome (list string) :=
  match items with
  | [] => Ret []
  | item :: rest =>
      match (match item with JNull => Ret EmptyString | _ => render item end) with
      | Throw e => Throw e
      | Ret part =>
          match render_parts render rest with
          | Throw e => Throw e
          | Ret parts => Ret (part :: parts)
          end
      end
  end.

(** [String(v)], as a template literal renders a value.  An array is joined
    with commas.  A parsed object has no callable property of its own, so it
    renders through [Object.prototype.toString] unless it has an own
    [toString] property, in which case the conversion to a primitive throws a
    [TypeError]. *)
Fixpoint to_string (v : Json) : outcome string :=
  match v with
  | JNull => Ret "null"
  | JBool true => Ret "true"
  | JBool false => Ret "false"
  | JNumber n => Ret (number_to_string n)
  | JString s => Ret s
  | JArray items =>
      match render_parts to_string items with
      | Throw e => Throw e
      | Ret parts => Ret (join_comma parts)
      end
  | JObject fields =>
      match assoc "toString" fields with
      | Some _ => Throw "Cannot convert object to primitive value"
      | None => Ret "[object Object]"
      end
  end.

Definition template (v : option Json) : outcome string :=
  match v with None => Ret "undefined" | Some j => to_string j end.

(** A computation over mutable state [S] that may throw; a throw keeps the
    mutations made before it, as in JavaScript. *)
Definition M (S A : Type) : Type := S -> outcome A * S.

Definition ret {S A} (a : A) : M S A := fun s => (Ret a, s).
Definition throw {S A} (message : string) : M S A := fun s => (Throw message, s).
Definition bind {S A B} (m : M S A) (f : A -> M S B) : M S B :=
  fun s => match m s with
           | (Ret a, s') => f a s'
           | (Throw e, s') => (Throw e, s')
           end.
Definition try_catch {S A} (body : M S A) (handler : string -> M S A) : M S A :=
  fun s => match body s with
           | (Ret a, s') => (Ret a, s')
           | (Throw e, s') => handler e s'
           end.
Definition gets {S A} (f : S -> A) : M S A := fun s => (Ret (f s), s).
Definition modify {S} (f : S -> S) : M S unit := fun s => (Ret tt, f s).
Definition lift {S A} (o : outcome A) : M S A := fun s => (o, s).

Declare Scope js_scope.
Delimit Scope js_scope with js.
Notation "x <- m ;; k" := (bind m (fun x => k))
  (at level 100, m at next level, right associativity) : js_scope.
Notation "m ;;; k" := (bind m (fun _ => k))
  (at level 100, right associativity) : js_scope.

Module CacheEntry.
Record t : Type := mk { data : Json; timestamp : Z }.
End CacheEntry.

Module Response.
(** The fields of a fetch [Response] the resolver reads; [json] is what
    [await response.json()] gives (it throws on a malformed body). *)
Record t : Type := mk { ok : bool; status : Z; statusText : string; json : outcome Json }.
End Response.

Module DirectoryResult.
Record t : Type := mk {
  success : bool;
  directory : option Json;
  error : option string;
  url : string;
  timestamp : Z }.
End DirectoryResult.

(** The process state the two modules touch: the module-level
    [directoryCache], the calls made to the global [fetch] (oldest first) and
    the lines written with [console.error]. *)
Record World : Type := mkWorld {
  directoryCache : gmap string CacheEntry.t;
  fetchCalls : list string;
  console : list string }.

Definition set_directoryCache (c : gmap string CacheEntry.t) (w : World) : World :=
  mkWorld c (fetchCalls w) (console w).
Definition log_fetch (u : string) (w : World) : World :=
  mkWorld (directoryCache w) (fetchCalls w ++ [u]) (console w).
Definition log_console (line : string) (w : World) : World :=
  mkWorld (directoryCache w) (fetchCalls w) (console w ++ [line]).

Module Request.
(** An inbound request.  [headers] is the [Headers] object: names are
    stored in lower case, so [headers.get("signature")] is a map lookup. *)
Record t : Type := mk { method : string; url : string; headers : gmap string string }.
End Request.

(** What [verifierFromJWK] hands to [verify]: the always-throwing verifier of
    the test mock, or the library's verifier for a key. *)
Inductive Verifier : Type :=
  | MockVerifier
  | LibVerifier (jwk : Json).

(** What one call reads from outside the two modules: the environment flag,
    the clock, the network, and the two functions imported from the
    [web-bot-auth] package. *)
Record Ambient : Type := mkAmbient {
  NODE_ENV : option string;
  Date_now : Z;
  toISOString : string;
  fetch : string -> outcome Response.t;
  lib_verifierFromJWK : Json -> outcome Verifier;
  lib_verify : Request.t -> Verifier -> outcome unit }.

Local Open Scope js_scope.

(** [await fetch(url, ...)]: the call is made (and counted), then answers or
    rejects. *)
Definition do_fetch (amb : Ambient) (url : string) : M World Response.t :=
  modify (log_fetch url) ;;; lift (fetch amb url).

(** Lines 37-78 of [directory.ts]: the part of the [try] block after the
    cache check. *)
Definition fetch_fresh (amb : Ambient) (url : string) (timestamp : Z)
  : M World DirectoryResult.t :=
  response <- do_fetch amb url ;;
  if negb (Response.ok response) then
    ret (DirectoryResult.mk false None
           (Some ("Failed to fetch directory: " +:+ pretty (Response.status response)
                  +:+ " " +:+ Response.statusText response))
           url timestamp)
  else
    data <- lift (Response.json response) ;;
    let validationResult := validateDirectoryStructure data in
    if negb (StructureCheck.isValid validationResult) then
      ret (DirectoryResult.mk false None
             (Some ("Invalid directory structure: "
                    +:+ template_string (StructureCheck.error validationResult)))
             url timestamp)
    else
      let directory := data in
      modify (fun w =>
                set_directoryCache
                  (<[url := CacheEntry.mk directory timestamp]> (directoryCache w)) w) ;;;
      ret (DirectoryResult.mk true (Some directory) None url timestamp).

Definition fetchSignaturesDirectory (amb : Ambient) (url : string) (cacheTimeout : option Z)
  : M World DirectoryResult.t :=
  let cacheTimeout := default (60 * 60 * 1000) cacheTimeout in
  let timestamp := Date_now amb in
  try_catch
    (cached <- gets (fun w => directoryCache w !! url) ;;
     match cached with
     | Some c =>
         if timestamp - CacheEntry.timestamp c <? cacheTimeout then
           ret (DirectoryResult.mk true (Some (CacheEntry.data c)) None url
                  (CacheEntry.timestamp c))
         else fetch_fresh amb url timestamp
     | None => fetch_fresh amb url timestamp
     end)
    (fun error =>
       ret (DirectoryResult.mk false None (Some ("Error fetching directory: " +:+ error))
              url timestamp)).

(** [directory.keys.find((key) => key.kid === kid)] over the elements; reading
    [kid] off [null] throws. *)
Fixpoint find_key (keys : list Json) (kid : string) : outcome (option Json) :=
  match keys with
  | [] => Ret None
  | key :: rest =>
      match key with
      | JNull => Throw "Cannot read properties of null (reading 'kid')"
      | _ => if strict_eq_string (prop key "kid") kid then Ret (Some key)
             else find_key rest kid
      end
  end.

(** [findKeyById]; on a value whose [keys] is no array the call of [find]
    throws a [TypeError]. *)
Definition findKeyById (directory : Json) (kid : string) : outcome (option Json) :=
  match directory with
  | JObject fields =>
      match assoc "keys" fields with
      | Some (JArray keys) => find_key keys kid
      | Some JNull => Throw "Cannot read properties of null (reading 'find')"
      | Some _ => Throw "directory.keys.find is not a function"
      | None => Throw "Cannot read properties of undefined (reading 'find')"
      end
  | JNull => Throw "Cannot read properties of null (reading 'keys')"
  | JArray _ => Throw "directory.keys.find is not a function"
  | _ => Throw "Cannot read properties of undefined (reading 'find')"
  end.

Definition clearDirectoryCache : M World unit :=
  modify (set_directoryCache ∅).

(** ** Header parsing ([signature.ts]) *)

(** [s] with the prefix [p] removed, when [s] starts with [p]. *)
Fixpoint strip_prefix (p s : string) : option string :=
  match p, s with
  | EmptyString, _ => Some s
  | String a p', String b s' => if Ascii.eqb a b then strip_prefix p' s' else None
  | String _ _, EmptyString => None
  end.

(** The longest prefix of [s] whose characters satisfy [f], and the rest. *)
Fixpoint span (f : ascii -> bool) (s : string) : string * string :=
  match s with
  | EmptyString => (EmptyString, EmptyString)
  | String c s' =>
      if f c then let '(run, rest) := span f s' in (String c run, rest)
      else (EmptyString, s)
  end.

Definition is_quote (c : ascii) : bool := Ascii.eqb c (ascii_of_nat 34).
Definition is_digit (c : ascii) : bool :=
  let n := nat_of_ascii c in ((48 <=? n) && (n <=? 57))%nat.

(** The leftmost position of [s] where [at_pos] matches, as [String.match]
    without the [g] flag scans. *)
Fixpoint search (at_pos : string -> option string) (s : string) : option string :=
  match at_pos s with
  | Some group => Some group
  | None =>
      match s with
      | EmptyString => None
      | String _ s' => search at_pos s'
      end
  end.

(** Group 1 of [/name="([^"]+)"/] matched at the start of [s]: after
    [name="] the group is the run up to the next quote, which must be there
    and must not come at once. *)
Definition quoted_here (name s : string) : option string :=
  match strip_prefix (name +:+ "=" +:+ dq) s with
  | None => None
  | Some after =>
      match span (fun c => negb (is_quote c)) after with
      | (String c run, String _ _) => Some (String c run)
      | _ => None
      end
  end.

(** Group 1 of [/name=(\d+)/] matched at the start of [s]. *)
Definition digits_here (name s : string) : option string :=
  match strip_prefix (name +:+ "=") s with
  | None => None
  | Some after =>
      match span is_digit after with
      | (String c run, _) => Some (String c run)
      | _ => None
      end
  end.

Definition match_quoted (name s : string) : option string := search (quoted_here name) s.
Definition match_digits (name s : string) : option string := search (digits_here name) s.

Module SignatureComponents.
Record t : Type := mk {
  signature : string;
  signatureInput : string;
  keyId : option string;
  algorithm : option string;
  created : option string;
  expires : option string;
  nonce : option string;
  tag : option string }.
End SignatureComponents.

(** A header value is falsy when the header is absent or its value is the
    empty string. *)
Definition header_truthy (h : option string) : bool :=
  match h with
  | Some v => negb (String.eqb v EmptyString)
  | None => false
  end.

Definition extractSignatureComponents (request : Request.t) : option SignatureComponents.t :=
  let signature := Request.headers request !! "signature" in
  let signatureInput := Request.headers request !! "signature-input" in
  match signature, signatureInput with
  | Some sig, Some input =>
      if negb (header_truthy signature) || negb (header_truthy signatureInput) then None
      else
        Some (SignatureComponents.mk sig input
                (match_quoted "keyid" input)
                (match_quoted "alg" input)
                (match_digits "created" input)
                (match_digits "expires" input)
                (match_quoted "nonce" input)
                (match_quoted "tag" input))
  | _, _ => None
  end.

(** ** Signature verification ([signature.ts]) *)

Definition env_is_test (amb : Ambient) : bool :=
  match NODE_ENV amb with
  | Some v => String.eqb v "test"
  | None => false
  end.

(** [mockWebBotAuth.verify] and [mockWebBotAuth.verifierFromJWK]. *)
Definition mock_verify (amb : Ambient) (request : Request.t) (verifier : Verifier)
  : outcome unit :=
  if env_is_test amb then Throw "Mock verification failure"
  else lib_verify amb request verifier.

Definition mock_verifierFromJWK (amb : Ambient) (jwk : Json) : outcome Verifier :=
  if env_is_test amb then Ret MockVerifier
  else lib_verifierFromJWK amb jwk.

Definition verifySignatureWithWebBotAuth
  (amb : Ambient) (request : Request.t) (key : Json) (directory : Json) : M World bool :=
  try_catch
    (verifier <- lift (mock_verifierFromJWK amb key) ;;
     lift (mock_verify amb request verifier) ;;;
     ret true)
    (fun error =>
       modify (log_console ("Signature verification error: " +:+ error)) ;;;
       ret false).

Record Details : Type := mkDetails {
  signatureFound : bool;
  directoryFetched : bool;
  keyMatched : bool;
  signatureValid : bool }.

Module ValidationConfig.
Record t : Type := mk {
  directoryUrl : string;
  purpose : option string;
  cacheTimeout : option Z }.
End ValidationConfig.

Module Metadata.
(** [purpose] is whatever the directory declares: the structure check
    does not constrain it. *)
Record t : Type := mk {
  kid : option string;
  purpose : option Json;
  timestamp : option string }.
End Metadata.

Module ValidationResult.
Record t : Type := mk {
  isValid : bool;
  error : option string;
  details : option Details;
  metadata : option Metadata.t }.
End ValidationResult.

(** [validateWebBotAuth] runs over its local [details] object and the
    world. *)
Definition VState : Type := Details * World.

Definition in_world {A} (m : M World A) : M VState A :=
  fun '(d, w) => let '(o, w') := m w in (o, (d, w')).
Definition get_details : M VState Details := gets fst.
Definition set_details (f : Details -> Details) : M VState unit :=
  modify (fun '(d, w) => (f d, w)).

Definition with_signatureFound (b : bool) (d : Details) : Details :=
  mkDetails b (directoryFetched d) (keyMatched d) (signatureValid d).
Definition with_directoryFetched (b : bool) (d : Details) : Details :=
  mkDetails (signatureFound d) b (keyMatched d) (signatureValid d).
Definition with_keyMatched (b : bool) (d : Details) : Details :=
  mkDetails (signatureFound d) (directoryFetched d) b (signatureValid d).
Definition with_signatureValid (b : bool) (d : Details) : Details :=
  mkDetails (signatureFound d) (directoryFetched d) (keyMatched d) b.

(** [return { isValid: false, error, details }]. *)
Definition failure (error : string) (details : Details) : ValidationResult.t :=
  ValidationResult.mk false (Some error) (Some details) None.

(** A configured purpose is truthy when it is a non-empty string. *)
Definition purpose_truthy (p : option string) : bool := header_truthy p.

(** The condition of step 5,
    [config.purpose && directory.purpose !== config.purpose]. *)
Definition purpose_differs (config : ValidationConfig.t) (directory : Json) : bool :=
  purpose_truthy (ValidationConfig.purpose config)
  && negb (strict_eq_string (prop directory "purpose")
             (default EmptyString (ValidationConfig.purpose config))).

(** The directory to go on with, unless
    [!directoryResult.success || !directoryResult.directory]. *)
Definition usable_directory (directoryResult : DirectoryResult.t) : option Json :=
  if negb (DirectoryResult.success directoryResult)
     || negb (truthy (DirectoryResult.directory directoryResult))
  then None
  else DirectoryResult.directory directoryResult.

(** Lines 51-112 of [signature.ts]: the [try] block. *)
Definition validate_body (amb : Ambient) (request : Request.t) (config : ValidationConfig.t)
  : M VState ValidationResult.t :=
  match extractSignatureComponents request with
  | None =>
      details <- get_details ;;
      ret (failure "No HTTP Message Signature headers found" details)
  | Some signatureComponents =>
      set_details (with_signatureFound true) ;;;
      directoryResult <-
        in_world (fetchSignaturesDirectory amb (ValidationConfig.directoryUrl config)
                    (ValidationConfig.cacheTimeout config)) ;;
      match usable_directory directoryResult with
      | None =>
          details <- get_details ;;
          ret (failure ("Failed to fetch signatures directory: "
                        +:+ template_string (DirectoryResult.error directoryResult)) details)
      | Some directory =>
          set_details (with_directoryFetched true) ;;;
          key <- lift (findKeyById directory
                         (default EmptyString (SignatureComponents.keyId signatureComponents))) ;;
          match key with
          | None =>
              details <- get_details ;;
              ret (failure ("No matching key found for kid: "
                            +:+ template_string (SignatureComponents.keyId signatureComponents))
                     details)
          | Some key =>
              set_details (with_keyMatched true) ;;;
              signatureValid <-
                in_world (verifySignatureWithWebBotAuth amb request key directory) ;;
              if negb signatureValid then
                details <- get_details ;;
                ret (failure "Signature verification failed" (with_signatureValid false details))
              else
                set_details (with_signatureValid true) ;;;
                if purpose_differs config directory then
                  got <- lift (template (prop directory "purpose")) ;;
                  details <- get_details ;;
                  ret (failure
                         ("Purpose mismatch: expected " +:+ dq
                          +:+ template_string (ValidationConfig.purpose config) +:+ dq
                          +:+ ", got " +:+ dq +:+ got +:+ dq)
                         (with_signatureValid true details))
                else
                  details <- get_details ;;
                  ret (ValidationResult.mk true None (Some details)
                         (Some (Metadata.mk
                                  (SignatureComponents.keyId signatureComponents)
                                  (prop directory "purpose")
                                  (Some (toISOString amb)))))
          end
      end
  end.

Definition initial_details : Details := mkDetails false false false false.

(** The [details] object after each milestone. *)
Definition details_found : Details := mkDetails true false false false.
Definition details_fetched : Details := mkDetails true true false false.
Definition details_matched : Details := mkDetails true true true false.
Definition details_verified : Details := mkDetails true true true true.

Definition validateWebBotAuth (amb : Ambient) (request : Request.t) (config : ValidationConfig.t)
  : M World ValidationResult.t :=
  fun w =>
    let '(o, (_, w')) :=
      try_catch (validate_body amb request config)
        (fun error =>
           details <- get_details ;;
           ret (failure ("Validation error: " +:+ error) details))
        (initial_details, w) in
    (o, w').

(** ** Vocabulary of the specification *)

(** The error kinds of the taxonomy, recognised by the message the verifier
    attaches to a failed result. *)
Definition MissingSignature (r : ValidationResult.t) : Prop :=
  ValidationResult.isValid r = false
  /\ ValidationResult.error r = Some "No HTTP Message Signature headers found".

Definition DirectoryUnavailable (r : ValidationResult.t) : Prop :=
  ValidationResult.isValid r = false
  /\ exists cause, ValidationResult.error r
                   = Some ("Failed to fetch signatures directory: " +:+ cause).

Definition UnknownKey (r : ValidationResult.t) : Prop :=
  ValidationResult.isValid r = false
  /\ exists kid, ValidationResult.error r = Some ("No matching key found for kid: " +:+ kid).

Definition SignatureInvalid (r : ValidationResult.t) : Prop :=
  ValidationResult.isValid r = false
  /\ ValidationResult.error r = Some "Signature verification failed".

Definition PurposeMismatch (r : ValidationResult.t) : Prop :=
  ValidationResult.isValid r = false
  /\ exists expected got,
       ValidationResult.error r
       = Some ("Purpose mismatch: expected " +:+ dq +:+ expected +:+ dq
               +:+ ", got " +:+ dq +:+ got +:+ dq).

(** The freshness window in force: the configured one, or one hour. *)
Definition freshnessWindow (cacheTimeout : option Z) : Z :=
  default (60 * 60 * 1000) cacheTimeout.

(** A cache entry is fresh when [now - entryTimestamp < freshnessWindow]. *)
Definition fresh (amb : Ambient) (cacheTimeout : option Z) (c : CacheEntry.t) : Prop :=
  Date_now amb - CacheEntry.timestamp c < freshnessWindow cacheTimeout.

(** A lookup misses when there is no entry for the URL, or a stale one. *)
Definition miss (amb : Ambient) (url : string) (cacheTimeout : option Z) (w : World) : Prop :=
  forall c, directoryCache w !! url = Some c -> ~ fresh amb cacheTimeout c.

(** The directory a fetch of [url] would deliver: the body of an ok response
    that parses and passes the structure check; [None] when the fetch fails
    in any way. *)
Definition delivered (amb : Ambient) (url : string) : option Json :=
  match fetch amb url with
  | Throw _ => None
  | Ret response =>
      if Response.ok response then
        match Response.json response with
        | Throw _ => None
        | Ret data =>
            if StructureCheck.isValid (validateDirectoryStructure data) then Some data else None
        end
      else None
  end.

(** The Key invariants of the data model: an object of type OKP on curve
    Ed25519 with non-empty string [x] and [kid], whose [nbf] and [exp], when
    present, are numbers. *)
Definition key_invariants (key : Json) : Prop :=
  exists fields,
    key = JObject fields
    /\ assoc "kty" fields = Some (JString "OKP")
    /\ assoc "crv" fields = Some (JString "Ed25519")
    /\ (exists x, assoc "x" fields = Some (JString x) /\ x <> EmptyString)
    /\ (exists kid, assoc "kid" fields = Some (JString kid) /\ kid <> EmptyString)
    /\ (assoc "nbf" fields = None \/ exists n, assoc "nbf" fields = Some (JNumber n))
    /\ (assoc "exp" fields = None \/ exists n, assoc "exp" fields = Some (JNumber n)).

(** The four ways the data model lets a key be wrong: type, curve, and a
    missing or non-string [x] or [kid]. *)
Definition kty_violation (key : Json) : Prop := prop key "kty" <> Some (JString "OKP").
Definition crv_violation (key : Json) : Prop := prop key "crv" <> Some (JString "Ed25519").
Definition x_violation (key : Json) : Prop := forall s, prop key "x" <> Some (JString s).
Definition kid_violation (key : Json) : Prop := forall s, prop key "kid" <> Some (JString s).

Definition violates_key_invariants (key : Json) : Prop :=
  kty_violation key \/ crv_violation key \/ x_violation key \/ kid_violation key.

(** The Directory invariant: a non-empty key array, every key valid. *)
Definition directory_invariants (data : Json) : Prop :=
  exists fields keys,
    data = JObject fields
    /\ assoc "keys" fields = Some (JArray keys)
    /\ keys <> []
    /\ Forall key_invariants keys.

Definition cache_well_formed (w : World) : Prop :=
  forall url entry,
    directoryCache w !! url = Some entry -> directory_invariants (CacheEntry.data entry).

(** A key is outside its validity window at instant [now] when its
    not-before lies in the future or its not-after in the past. *)
Definition outside_validity_window (now : Z) (key : Json) : Prop :=
  (exists nbf, prop key "nbf" = Some (JNumber nbf) /\ now < nbf)
  \/ (exists exp, prop key "exp" = Some (JNumber exp) /\ exp < now).

(** The milestones are reached in order. *)
Definition milestones_monotone (d : Details) : Prop :=
  (signatureValid d = true -> keyMatched d = true)
  /\ (keyMatched d = true -> directoryFetched d = true)
  /\ (directoryFetched d = true -> signatureFound d = true).

(** The worlds the process can be in: it starts with an empty cache, and the
    cache is private to [directory.ts], so it changes only through the
    exported operations, each run under any ambient conditions. *)
Inductive reachable : World -> Prop :=
  | reachable_start fetches lines :
      reachable (mkWorld ∅ fetches lines)
  | reachable_fetch amb url cacheTimeout w o w' :
      reachable w ->
      fetchSignaturesDirectory amb url cacheTimeout w = (o, w') ->
      reachable w'
  | reachable_validate amb request config w o w' :
      reachable w ->
      validateWebBotAuth amb request config w = (o, w') ->
      reachable w'
  | reachable_clear w o w' :
      reachable w ->
      clearDirectoryCache w = (o, w') ->
      reachable w'.

(** ** Fixtures *)

(** The test fixtures of [directory.test.ts] and [signature.test.ts]. *)
Definition example_url : string :=
  "https://example.com/.well-known/http-message-signatures-directory".

Definition mockKey1 : Json :=
  JObject [("kty", JString "OKP"); ("crv", JString "Ed25519");
           ("kid", JString "test-key-1");
           ("x", JString "JrQLj5P_89iXES9-vFgrIy29clF9CC_oPPsw3c5D0bs");
           ("nbf", JNumber 1743465600000); ("exp", JNumber 1743552000000)].

Definition mockKey2 : Json :=
  JObject [("kty", JString "OKP"); ("crv", JString "Ed25519");
           ("kid", JString "test-key-2");
           ("x", JString "AnotherTestKeyForValidationPurposesOnly");
           ("nbf", JNumber 1743465600000)].

Definition mockDirectory : Json :=
  JObject [("keys", JArray [mockKey1; mockKey2]); ("purpose", JString "rag")].

(** A network that answers every URL with [200 OK] and the given body, a
    library that accepts every signature, and a process outside the test
    environment. *)
Definition serving (body : Json) (now : Z) : Ambient :=
  mkAmbient (Some "production") now "2025-04-01T00:00:00.000Z"
    (fun _ => Ret (Response.mk true 200 "OK" (Ret body)))
    (fun jwk => Ret (LibVerifier jwk))
    (fun _ _ => Ret tt).

(** A network that answers [404 Not Found]. *)
Definition not_found (now : Z) : Ambient :=
  mkAmbient (Some "production") now "2025-04-01T00:00:00.000Z"
    (fun _ => Ret (Response.mk false 404 "Not Found" (Throw "Unexpected end of JSON input")))
    (fun jwk => Ret (LibVerifier jwk))
    (fun _ _ => Ret tt).

Definition empty_world : World := mkWorld ∅ [] [].

(** The directory of the test "should validate JWK structure", preceded by a
    valid key. *)
Definition rsaKey : Json := JObject [("kty", JString "RSA"); ("kid", JString "test-key")].

Definition validKey : Json :=
  JObject [("kty", JString "OKP"); ("crv", JString "Ed25519");
           ("kid", JString "test-key"); ("x", JString "test-public-key")].

Definition invalidDirectoryFields : list (string * Json) :=
  [("keys", JArray [validKey; rsaKey])].

(** The configuration and requests of [signature.test.ts]. *)
Definition testConfig : ValidationConfig.t :=
  ValidationConfig.mk example_url (Some "test") (Some 1000).

Definition unsignedRequest : Request.t :=
  Request.mk "GET" "https://example.com/test" {[ "content-type" := "application/json" ]}.

Definition incompleteRequest : Request.t :=
  Request.mk "GET" "https://example.com/test" {[ "signature" := "test-signature" ]}.

Definition signedRequest (keyid : string) : Request.t :=
  Request.mk "GET" "https://example.com/test"
    {[ "signature" := "test-signature-value";
       "signature-input" :=
         "keyid=" +:+ dq +:+ keyid +:+ dq +:+ ",alg=" +:+ dq +:+ "ed25519" +:+ dq
         +:+ ",created=1234567890,expires=1234567899,tag=" +:+ dq +:+ "web-bot-auth" +:+ dq ]}.

Definition testDirectory : Json :=
  JObject [("keys", JArray [validKey]); ("purpose", JString "test")].

(** The configuration of [examples/verification.ts], and one whose expected
    purpose is the empty string. *)
Definition ragConfig : ValidationConfig.t :=
  ValidationConfig.mk example_url (Some "rag") (Some (60 * 60 * 1000)).


(** A directory that passes the structure check and declares as its purpose
    an object with a property named [toString]. *)
Definition opaquePurposeDirectory : Json :=
  JObject [("keys", JArray [mockKey1; mockKey2]);
           ("purpose", JObject [("toString", JNumber 1)])].

(** The same ambient conditions under another value of [NODE_ENV]. *)
Definition with_NODE_ENV (v : option string) (amb : Ambient) : Ambient :=
  mkAmbient v (Date_now amb) (toISOString amb) (fetch amb)
    (lib_verifierFromJWK amb) (lib_verify amb).

(** The world after one successful resolve of [url] at instant [now]. *)
Definition world_after_fetch (url : string) (data : Json) (now : Z) : World :=
  mkWorld {[ url := CacheEntry.mk data now ]} [url] [].

(** ** Further vocabulary and fixtures *)

(** A key carries the identifier [kid]. *)
Definition has_kid (kid : string) (key : Json) : Prop :=
  prop key "kid" = Some (JString kid).

(** The taxonomy as a whole: a result is a success or one of the five
    kinds. *)
Definition classified (r : ValidationResult.t) : Prop :=
  ValidationResult.isValid r = true
  \/ MissingSignature r \/ DirectoryUnavailable r \/ UnknownKey r
  \/ SignatureInvalid r \/ PurposeMismatch r.

(** Every character of [s] satisfies [f]. *)
Fixpoint string_forall (f : ascii -> bool) (s : string) : bool :=
  match s with
  | EmptyString => true
  | String c s' => f c && string_forall f s'
  end.

(** No character of [s] is a double quote; every character is a digit. *)
Definition quote_free (s : string) : bool := string_forall (fun c => negb (is_quote c)) s.
Definition all_digits (s : string) : bool := string_forall is_digit s.

(** [s] is empty or starts with a character that fails [f]. *)
Definition head_fails (f : ascii -> bool) (s : string) : Prop :=
  match s with
  | EmptyString => True
  | String c _ => f c = false
  end.

(** The text [name="value"] that the quoted patterns look for, and the
    text [name=] that starts a numeric parameter. *)
Definition quoted_parameter (name value : string) : string :=
  name +:+ "=" +:+ dq +:+ value +:+ dq.

(** [s] contains [name="value"] for some non-empty, quote-free [value]. *)
Definition mentions_quoted (name s : string) : Prop :=
  exists pre value post,
    value <> EmptyString /\ quote_free value = true
    /\ s = pre +:+ quoted_parameter name value +:+ post.

(** Two keys published under one identifier. *)
Definition firstKey : Json :=
  JObject [("kty", JString "OKP"); ("crv", JString "Ed25519");
           ("kid", JString "shared"); ("x", JString "first")].

Definition secondKey : Json :=
  JObject [("kty", JString "OKP"); ("crv", JString "Ed25519");
           ("kid", JString "shared"); ("x", JString "second")].

Definition collidingDirectory : Json :=
  JObject [("keys", JArray [validKey; firstKey; secondKey])].

(** A key whose not-before is [null]. *)
Definition nullNbfKey : Json :=
  JObject [("kty", JString "OKP"); ("crv", JString "Ed25519");
           ("kid", JString "test-key"); ("x", JString "test-public-key");
           ("nbf", JNull)].

(** A request whose signature-input names no key, and one whose [signature]
    header is present but empty. *)
Definition noKeyidRequest : Request.t :=
  Request.mk "GET" "https://example.com/test"
    {[ "signature" := "test-signature-value";
       "signature-input" := "alg=" +:+ dq +:+ "ed25519" +:+ dq +:+ ",created=1234567890" ]}.

Definition emptySignatureRequest : Request.t :=
  Request.mk "GET" "https://example.com/test"
    {[ "signature" := EmptyString;
       "signature-input" := "keyid=" +:+ dq +:+ "test-key" +:+ dq ]}.

(** A configuration that expects no purpose. *)
Definition anyPurposeConfig : ValidationConfig.t :=
  ValidationConfig.mk example_url None None.

(** A header is absent, or present with the empty value. *)
Definition absent_or_empty (h : option string) : Prop :=
  h = None \/ h = Some EmptyString.

(** [s] contains [name=] followed by a digit. *)
Definition mentions_digits (name s : string) : Prop :=
  exists pre d post,
    is_digit d = true /\ s = pre +:+ name +:+ "=" +:+ String d post.

(** ** The example handlers ([examples/verification.ts])

    The handlers also write progress lines with [console.log]; those go to
    standard output, which the world does not record (it records the
    [console.error] lines). *)

Module WorkerResponse.
(** An outbound [Response] as the handlers build it: the body text, the
    status and the headers passed to the constructor. *)
Record t : Type := mk { body : string; status : Z; headers : list (string * string) }.
End WorkerResponse.

(** What a handler reads besides the ambient conditions of the verifier:
    [new URL(u).pathname] (the constructor throws on a string that is no
    URL) and the instant rendered into an error body. *)
Record Platform : Type := mkPlatform {
  URL_pathname : string -> outcome string;
  responseDate : string }.

Definition hex_digit (n : nat) : ascii :=
  ascii_of_nat (if (n <? 10)%nat then 48 + n else 87 + n).

(** [JSON.stringify] of a string, character by character: the quote and the
    backslash are escaped, control characters are written as their short
    escape or as [\u00XX], everything else is kept. *)
Definition json_escape (c : ascii) : string :=
  let n := nat_of_ascii c in
  if (n =? 34)%nat then "\" +:+ dq
  else if (n =? 92)%nat then "\\"
  else if (n =? 8)%nat then "\b"
  else if (n =? 12)%nat then "\f"
  else if (n =? 10)%nat then "\n"
  else if (n =? 13)%nat then "\r"
  else if (n =? 9)%nat then "\t"
  else if (n <? 32)%nat then
    "\u00" +:+ String (hex_digit (n / 16)) (String (hex_digit (n mod 16)) EmptyString)
  else String c EmptyString.

Fixpoint json_escape_all (s : string) : string :=
  match s with
  | EmptyString => EmptyString
  | String c s' => json_escape c +:+ json_escape_all s'
  end.

Definition json_quote (s : string) : string := dq +:+ json_escape_all s +:+ dq.

(** [JSON.stringify({ error, details, timestamp })]; an undefined [details]
    is left out. *)
Definition stringify_error (error : string) (details : option string) (timestamp : string)
  : string :=
  "{" +:+ dq +:+ "error" +:+ dq +:+ ":" +:+ json_quote error
  +:+ match details with
      | Some d => "," +:+ dq +:+ "details" +:+ dq +:+ ":" +:+ json_quote d
      | None => EmptyString
      end
  +:+ "," +:+ dq +:+ "timestamp" +:+ dq +:+ ":" +:+ json_quote timestamp +:+ "}".

Module WebBotAuthTag.
(** The property the middleware attaches to a validated request. *)
Record t : Type := mk { isValid : bool; metadata : option Metadata.t }.
End WebBotAuthTag.

Module Examples.

Definition exampleConfig : ValidationConfig.t :=
  ValidationConfig.mk
    "https://http-message-signatures-example.research.cloudflare.com/.well-known/http-message-signatures-directory"
    (Some "rag") (Some (60 * 60 * 1000)).

Definition validateIncomingRequest (amb : Ambient) (request : Request.t)
  : M World ValidationResult.t :=
  validateWebBotAuth amb request exampleConfig.

Definition handleWorkerRequest (plat : Platform) (amb : Ambient) (request : Request.t)
  : M World WorkerResponse.t :=
  pathname <- lift (URL_pathname plat (Request.url request)) ;;
  if String.eqb pathname "/health" || String.eqb pathname "/debug" then
    ret (WorkerResponse.mk "OK" 200 [])
  else
    validationResult <- validateIncomingRequest amb request ;;
    if negb (ValidationResult.isValid validationResult) then
      ret (WorkerResponse.mk
             (stringify_error "Signature validation failed"
                (ValidationResult.error validationResult) (responseDate plat))
             401 [("Content-Type", "application/json")])
    else ret (WorkerResponse.mk "Request validated successfully!" 200 []).


(** The middleware runs over the [webBotAuth] property of the request object
    (unset at first) and the world; [next] is the framework's continuation,
    called synchronously. *)
Definition MiddlewareState : Type := option WebBotAuthTag.t * World.

Definition on_world {A} (m : M World A) : M MiddlewareState A :=
  fun '(tag, w) => let '(o, w') := m w in (o, (tag, w')).
Definition set_webBotAuth (tag : WebBotAuthTag.t) : M MiddlewareState unit :=
  modify (fun '(_, w) => (Some tag, w)).

Definition createValidationMiddleware (config : ValidationConfig.t)
  (amb : Ambient) (request : Request.t) (next : M World unit)
  : M MiddlewareState (option WorkerResponse.t) :=
  try_catch
    (result <- on_world (validateWebBotAuth amb request config) ;;
     if ValidationResult.isValid result then
       set_webBotAuth (WebBotAuthTag.mk true (ValidationResult.metadata result)) ;;;
       on_world next ;;;
       ret None
     else
       ret (Some (WorkerResponse.mk "Unauthorized: Invalid signature" 401 [])))
    (fun error =>
       on_world (modify (log_console ("Validation middleware error: " +:+ error))) ;;;
       ret (Some (WorkerResponse.mk "Internal Server Error" 500 []))).

End Examples.

(** A platform that parses the path of the test requests. *)
Definition pathOf (path : string) : Platform :=
  mkPlatform (fun _ => Ret path) "2025-04-01T00:00:00.000Z".

(** ** The resolver, case by case *)

Section Resolver.
Variables (amb : Ambient) (url : string).

Lemma fetch_fresh_rejected timestamp w e :
  fetch amb url = Throw e ->
  fetch_fresh amb url timestamp w = (Throw e, log_fetch url w).
Proof. intros H. unfold fetch_fresh, do_fetch, bind, modify, lift. now rewrite H. Qed.

Lemma fetch_fresh_not_ok timestamp w response :
  fetch amb url = Ret response ->
  Response.ok response = false ->
  fetch_fresh amb url timestamp w =
    (Ret (DirectoryResult.mk false None
            (Some ("Failed to fetch directory: " +:+ pretty (Response.status response)
                   +:+ " " +:+ Response.statusText response))
            url timestamp),
     log_fetch url w).
Proof.
  intros H Hok. unfold fetch_fresh, do_fetch, bind, modify, lift.
  now rewrite H, Hok.
Qed.

Lemma fetch_fresh_malformed timestamp w response e :
  fetch amb url = Ret response ->
  Response.ok response = true ->
  Response.json response = Throw e ->
  fetch_fresh amb url timestamp w = (Throw e, log_fetch url w).
Proof.
  intros H Hok Hj. unfold fetch_fresh, do_fetch, bind, modify, lift.
  now rewrite H, Hok, Hj.
Qed.

Lemma fetch_fresh_invalid timestamp w response data :
  fetch amb url = Ret response ->
  Response.ok response = true ->
  Response.json response = Ret data ->
  StructureCheck.isValid (validateDirectoryStructure data) = false ->
  fetch_fresh amb url timestamp w =
    (Ret (DirectoryResult.mk false None
            (Some ("Invalid directory structure: "
                   +:+ template_string (StructureCheck.error (validateDirectoryStructure data))))
            url timestamp),
     log_fetch url w).
Proof.
  intros H Hok Hj Hv. unfold fetch_fresh, do_fetch, bind, modify, lift.
  now rewrite H, Hok, Hj, Hv.
Qed.

Lemma fetch_fresh_valid timestamp w response data :
  fetch amb url = Ret response ->
  Response.ok response = true ->
  Response.json response = Ret data ->
  StructureCheck.isValid (validateDirectoryStructure data) = true ->
  fetch_fresh amb url timestamp w =
    (Ret (DirectoryResult.mk true (Some data) None url timestamp),
     set_directoryCache (<[url := CacheEntry.mk data timestamp]> (directoryCache w))
       (log_fetch url w)).
Proof.
  intros H Hok Hj Hv. unfold fetch_fresh, do_fetch, bind, modify, lift, ret.
  now rewrite H, Hok, Hj, Hv.
Qed.

Lemma resolver_hit cacheTimeout w c :
  directoryCache w !! url = Some c ->
  fresh amb cacheTimeout c ->
  fetchSignaturesDirectory amb url cacheTimeout w =
    (Ret (DirectoryResult.mk true (Some (CacheEntry.data c)) None url
            (CacheEntry.timestamp c)), w).
Proof.
  intros Hc Hf. unfold fetchSignaturesDirectory, try_catch, bind, gets, ret.
  rewrite Hc. unfold fresh, freshnessWindow in Hf.
  apply Z.ltb_lt in Hf. now rewrite Hf.
Qed.

Lemma resolver_miss cacheTimeout w :
  miss amb url cacheTimeout w ->
  fetchSignaturesDirectory amb url cacheTimeout w =
    try_catch (fetch_fresh amb url (Date_now amb))
      (fun error =>
         ret (DirectoryResult.mk false None
                (Some ("Error fetching directory: " +:+ error)) url (Date_now amb)))
      w.
Proof.
  intros Hm. unfold fetchSignaturesDirectory, try_catch at 1, bind, gets.
  destruct (directoryCache w !! url) as [c|] eqn:Hc; [|reflexivity].
  specialize (Hm c Hc). unfold fresh, freshnessWindow in Hm.
  apply Z.ltb_nlt in Hm. rewrite Hm. reflexivity.
Qed.

Lemma hit_or_miss cacheTimeout w :
  (exists c, directoryCache w !! url = Some c /\ fresh amb cacheTimeout c)
  \/ miss amb url cacheTimeout w.
Proof.
  destruct (directoryCache w !! url) as [c|] eqn:Hc.
  - destruct (Z_lt_dec (Date_now amb - CacheEntry.timestamp c)
                (freshnessWindow cacheTimeout)) as [Hf|Hf].
    + left. eauto.
    + right. intros c' Hc'. congruence.
  - right. intros c' Hc'. congruence.
Qed.

(** What a miss does, in terms of what the network delivers. *)
Lemma resolver_miss_delivered cacheTimeout w data :
  miss amb url cacheTimeout w ->
  delivered amb url = Some data ->
  fetchSignaturesDirectory amb url cacheTimeout w =
    (Ret (DirectoryResult.mk true (Some data) None url (Date_now amb)),
     set_directoryCache (<[url := CacheEntry.mk data (Date_now amb)]> (directoryCache w))
       (log_fetch url w)).
Proof.
  intros Hm Hd. rewrite resolver_miss by assumption. unfold try_catch.
  unfold delivered in Hd.
  destruct (fetch amb url) as [response|e] eqn:Hf; [|discriminate].
  destruct (Response.ok response) eqn:Hok; [|discriminate].
  destruct (Response.json response) as [d|e] eqn:Hj; [|discriminate].
  destruct (StructureCheck.isValid (validateDirectoryStructure d)) eqn:Hv; [|discriminate].
  injection Hd as <-.
  now rewrite (fetch_fresh_valid _ _ _ _ Hf Hok Hj Hv).
Qed.

Lemma resolver_miss_failed cacheTimeout w :
  miss amb url cacheTimeout w ->
  delivered amb url = None ->
  exists message,
    fetchSignaturesDirectory amb url cacheTimeout w =
      (Ret (DirectoryResult.mk false None (Some message) url (Date_now amb)),
       log_fetch url w).
Proof.
  intros Hm Hd. rewrite resolver_miss by assumption. unfold try_catch.
  unfold delivered in Hd.
  destruct (fetch amb url) as [response|e] eqn:Hf.
  - destruct (Response.ok response) eqn:Hok.
    + destruct (Response.json response) as [d|e] eqn:Hj.
      * destruct (StructureCheck.isValid (validateDirectoryStructure d)) eqn:Hv; [discriminate|].
        rewrite (fetch_fresh_invalid _ _ _ _ Hf Hok Hj Hv). eauto.
      * rewrite (fetch_fresh_malformed _ _ _ _ Hf Hok Hj). unfold ret. eauto.
    + rewrite (fetch_fresh_not_ok _ _ _ Hf Hok). eauto.
  - rewrite (fetch_fresh_rejected _ _ _ Hf). unfold ret. eauto.
Qed.
End Resolver.

Lemma resolver_cases amb url cacheTimeout w :
  (exists c,
      directoryCache w !! url = Some c /\ fresh amb cacheTimeout c
      /\ fetchSignaturesDirectory amb url cacheTimeout w =
           (Ret (DirectoryResult.mk true (Some (CacheEntry.data c)) None url
                   (CacheEntry.timestamp c)), w))
  \/ (exists data,
         miss amb url cacheTimeout w /\ delivered amb url = Some data
         /\ fetchSignaturesDirectory amb url cacheTimeout w =
              (Ret (DirectoryResult.mk true (Some data) None url (Date_now amb)),
               set_directoryCache
                 (<[url := CacheEntry.mk data (Date_now amb)]> (directoryCache w))
                 (log_fetch url w)))
  \/ (exists message,
         miss amb url cacheTimeout w /\ delivered amb url = None
         /\ fetchSignaturesDirectory amb url cacheTimeout w =
              (Ret (DirectoryResult.mk false None (Some message) url (Date_now amb)),
               log_fetch url w)).
Proof.
  destruct (hit_or_miss amb url cacheTimeout w) as [(c & Hc & Hf)|Hm].
  - left. exists c. auto using resolver_hit.
  - right. destruct (delivered amb url) as [data|] eqn:Hd.
    + left. exists data. auto using resolver_miss_delivered.
    + right. destruct (resolver_miss_failed amb url cacheTimeout w Hm Hd) as [m Hr].
      eauto.
Qed.

(** C5. A resolve returns the cached entry, without a fetch, exactly when
    [now - entryTimestamp < w]: the call makes no fetch if and only if the
    URL has an entry that is fresh; a fresh entry is returned and the world is
    left as it was; on a miss (no entry, or a stale one) one fetch is made and,
    when it fails, the failure is returned with no directory and the cache
    untouched.  Hence a window of 0 never serves an entry stored at or before
    the current instant, and two resolves at least a window apart from an
    uncached URL make exactly two fetches. *)
Theorem C5_cache_freshness amb url cacheTimeout w :
  (exists r w',
      fetchSignaturesDirectory amb url cacheTimeout w = (Ret r, w')
      /\ (fetchCalls w' = fetchCalls w <->
          exists c, directoryCache w !! url = Some c /\ fresh amb cacheTimeout c))
  /\ (forall c,
      directoryCache w !! url = Some c ->
      fresh amb cacheTimeout c ->
      fetchSignaturesDirectory amb url cacheTimeout w =
        (Ret (DirectoryResult.mk true (Some (CacheEntry.data c)) None url
                (CacheEntry.timestamp c)), w))
  /\ (miss amb url cacheTimeout w ->
      exists r w',
        fetchSignaturesDirectory amb url cacheTimeout w = (Ret r, w')
        /\ fetchCalls w' = (fetchCalls w ++ [url])%list
        /\ (delivered amb url = None ->
            DirectoryResult.success r = false
            /\ DirectoryResult.directory r = None
            /\ directoryCache w' = directoryCache w))
  /\ (forall c,
      cacheTimeout = Some 0 ->
      directoryCache w !! url = Some c ->
      CacheEntry.timestamp c <= Date_now amb ->
      exists r w',
        fetchSignaturesDirectory amb url cacheTimeout w = (Ret r, w')
        /\ fetchCalls w' = (fetchCalls w ++ [url])%list)
  /\ (forall amb2,
      directoryCache w !! url = None ->
      freshnessWindow cacheTimeout <= Date_now amb2 - Date_now amb ->
      exists r1 w1 r2 w2,
        fetchSignaturesDirectory amb url cacheTimeout w = (Ret r1, w1)
        /\ fetchSignaturesDirectory amb2 url cacheTimeout w1 = (Ret r2, w2)
        /\ fetchCalls w2 = (fetchCalls w ++ [url; url])%list).
Proof.
  assert (Hmiss : forall a v, miss a url cacheTimeout v ->
            exists r w',
              fetchSignaturesDirectory a url cacheTimeout v = (Ret r, w')
              /\ fetchCalls w' = (fetchCalls v ++ [url])%list
              /\ (delivered a url = None ->
                  DirectoryResult.success r = false
                  /\ DirectoryResult.directory r = None
                  /\ directoryCache w' = directoryCache v)
              /\ forall c, directoryCache w' !! url = Some c ->
                           directoryCache v !! url = Some c
                           \/ CacheEntry.timestamp c = Date_now a).
  { intros a v Hm.
    destruct (resolver_cases a url cacheTimeout v)
      as [(c & Hc & Hf & _)|[(data & _ & Hd & Hr)|(m & _ & Hd & Hr)]].
    - exfalso. exact (Hm c Hc Hf).
    - do 2 eexists. split; [exact Hr|]. split; [reflexivity|]. split; [congruence|].
      intros c. cbn. rewrite lookup_insert_eq. intros [= <-]. now right.
    - do 2 eexists. split; [exact Hr|]. split; [reflexivity|]. split; [easy|].
      intros c. cbn. now left. }
  split; [|split; [|split; [|split]]].
  - destruct (hit_or_miss amb url cacheTimeout w) as [(c & Hc & Hf)|Hm].
    + rewrite (resolver_hit _ _ _ _ _ Hc Hf). do 2 eexists. split; [reflexivity|].
      split; eauto.
    + destruct (Hmiss amb w Hm) as (r & w' & Hr & Hcalls & _).
      exists r, w'. split; [exact Hr|]. rewrite Hcalls. split.
      * intros H. apply (f_equal List.length) in H.
        rewrite length_app in H. cbn in H. lia.
      * intros (c & Hc & Hf). exfalso. exact (Hm c Hc Hf).
  - intros c Hc Hf. now apply resolver_hit.
  - intros Hm. destruct (Hmiss amb w Hm) as (r & w' & Hr & Hc & Hfail & _). eauto.
  - intros c -> Hc Hle.
    destruct (Hmiss amb w) as (r & w' & Hr & Hcalls & _).
    + intros c' Hc'. unfold fresh, freshnessWindow. cbn.
      assert (c' = c) by congruence. subst. lia.
    + eauto.
  - intros amb2 Hnone Hgap.
    destruct (Hmiss amb w) as (r1 & w1 & Hr1 & Hcalls1 & _ & Hts).
    { intros c Hc. congruence. }
    destruct (Hmiss amb2 w1) as (r2 & w2 & Hr2 & Hcalls2 & _).
    { intros c Hc. destruct (Hts c Hc) as [Hold|Hnew]; [congruence|].
      unfold fresh. lia. }
    exists r1, w1, r2, w2. split; [exact Hr1|]. split; [exact Hr2|].
    rewrite Hcalls2, Hcalls1, <- app_assoc. reflexivity.
Qed.

(** The scenario of the cache-timeout test: window 100, resolves at instants
    0 and 150, and a stale entry that a failing network does not bring back. *)
Lemma C5_cache_freshness_witness :
  (exists r1 w1 r2 w2,
      fetchSignaturesDirectory (serving mockDirectory 0) example_url (Some 100) empty_world
        = (Ret r1, w1)
      /\ fetchSignaturesDirectory (serving mockDirectory 150) example_url (Some 100) w1
         = (Ret r2, w2)
      /\ fetchCalls w2 = [example_url; example_url])
  /\ (exists r w',
         fetchSignaturesDirectory (not_found 150) example_url (Some 100)
           (mkWorld {[ example_url := CacheEntry.mk mockDirectory 0 ]} [] [])
         = (Ret r, w')
         /\ DirectoryResult.success r = false
         /\ DirectoryResult.directory r = None).
Proof.
  split.
  - destruct (C5_cache_freshness (serving mockDirectory 0) example_url (Some 100) empty_world)
      as (_ & _ & _ & _ & H).
    apply (H (serving mockDirectory 150)).
    + reflexivity.
    + vm_compute. discriminate.
  - destruct (C5_cache_freshness (not_found 150) example_url (Some 100)
                (mkWorld {[ example_url := CacheEntry.mk mockDirectory 0 ]} [] []))
      as (_ & _ & H & _).
    destruct H as (r & w' & Hr & _ & Hfail).
    + intros c Hc. cbn [directoryCache] in Hc.
      rewrite lookup_singleton_eq in Hc. injection Hc as <-.
      unfold fresh. vm_compute. discriminate.
    + exists r, w'. split; [exact Hr|]. destruct (Hfail eq_refl) as (? & ? & _). auto.
Defined.

(** ** The structure check *)

Lemma strict_eq_string_true v s :
  strict_eq_string v s = true <-> v = Some (JString s).
Proof.
  unfold strict_eq_string. split.
  - destruct v as [[]|]; try discriminate. intros H. apply String.eqb_eq in H. now subst.
  - intros ->. apply String.eqb_refl.
Qed.

Lemma nonempty_string_true v :
  negb (truthy v) || negb (typeof_string v) = false
  <-> exists s, v = Some (JString s) /\ s <> EmptyString.
Proof.
  split.
  - destruct v as [[]|]; cbn; try discriminate;
      try (now destruct b); try (now destruct (n =? 0)).
    intros H. exists s. split; [reflexivity|].
    intros ->. discriminate.
  - intros (s & -> & Hs). cbn.
    destruct (String.eqb s EmptyString) eqn:E; [|reflexivity].
    apply String.eqb_eq in E. contradiction.
Qed.

Lemma optional_number_true v :
  defined v && negb (typeof_number v) = false
  <-> v = None \/ exists n, v = Some (JNumber n).
Proof.
  split.
  - destruct v as [[]|]; cbn; try discriminate; eauto.
  - intros [->|(n & ->)]; reflexivity.
Qed.

Lemma validateJWK_valid_iff key :
  StructureCheck.isValid (validateJWK key) = true <-> key_invariants key.
Proof.
  unfold validateJWK, key_invariants. split.
  - destruct (negb (truthy (Some key)) || negb (typeof_object (Some key))) eqn:E0;
      [discriminate|].
    destruct (strict_eq_string (prop key "kty") "OKP") eqn:E1; [|discriminate].
    destruct (strict_eq_string (prop key "crv") "Ed25519") eqn:E2; [|discriminate].
    destruct (negb (truthy (prop key "x")) || negb (typeof_string (prop key "x"))) eqn:E3;
      [discriminate|].
    destruct (negb (truthy (prop key "kid")) || negb (typeof_string (prop key "kid"))) eqn:E4;
      [discriminate|].
    destruct (defined (prop key "nbf") && negb (typeof_number (prop key "nbf"))) eqn:E5;
      [discriminate|].
    destruct (defined (prop key "exp") && negb (typeof_number (prop key "exp"))) eqn:E6;
      [discriminate|].
    intros _.
    apply strict_eq_string_true in E1, E2.
    apply nonempty_string_true in E3, E4.
    apply optional_number_true in E5, E6.
    destruct key; try discriminate.
    exists fields. auto 10.
  - intros (fields & -> & H1 & H2 & H3 & H4 & H5 & H6).
    apply (strict_eq_string_true (prop (JObject fields) "kty")) in H1.
    apply (strict_eq_string_true (prop (JObject fields) "crv")) in H2.
    apply (nonempty_string_true (prop (JObject fields) "x")) in H3.
    apply (nonempty_string_true (prop (JObject fields) "kid")) in H4.
    apply (optional_number_true (prop (JObject fields) "nbf")) in H5.
    apply (optional_number_true (prop (JObject fields) "exp")) in H6.
    rewrite H1, H2, H3, H4, H5, H6. reflexivity.
Qed.

Lemma validateJWK_invalid_reason key :
  StructureCheck.isValid (validateJWK key) = false ->
  exists reason, StructureCheck.error (validateJWK key) = Some reason.
Proof.
  unfold validateJWK.
  repeat match goal with
         | |- context [if ?b then _ else _] => destruct b
         end; cbn; intros; try discriminate; eauto.
Qed.

(** A key wrong in one of the four listed ways fails [validateJWK]. *)
Lemma violation_rejected key :
  violates_key_invariants key -> StructureCheck.isValid (validateJWK key) = false.
Proof.
  intros Hv. destruct (StructureCheck.isValid (validateJWK key)) eqn:E; [|reflexivity].
  apply validateJWK_valid_iff in E.
  destruct E as (fields & -> & H1 & H2 & (x & H3 & _) & (kid & H4 & _) & _).
  destruct Hv as [Hv|[Hv|[Hv|Hv]]]; exfalso.
  - now apply Hv.
  - now apply Hv.
  - now apply (Hv x).
  - now apply (Hv kid).
Qed.

(** The message of [validateJWK] names the first constraint, in the order
    type, curve, [x], [kid], that an object key breaks. *)
Lemma reason_identifies fields :
  let key := JObject fields in
  (kty_violation key ->
   StructureCheck.error (validateJWK key)
   = Some ("Key type must be " +:+ dq +:+ "OKP" +:+ dq +:+ " for Ed25519"))
  /\ (~ kty_violation key -> crv_violation key ->
      StructureCheck.error (validateJWK key) = Some ("Curve must be " +:+ dq +:+ "Ed25519" +:+ dq))
  /\ (~ kty_violation key -> ~ crv_violation key -> x_violation key ->
      StructureCheck.error (validateJWK key)
      = Some ("Missing or invalid " +:+ dq +:+ "x" +:+ dq +:+ " coordinate"))
  /\ (~ kty_violation key -> ~ crv_violation key ->
      (exists s, prop key "x" = Some (JString s) /\ s <> EmptyString) ->
      kid_violation key ->
      StructureCheck.error (validateJWK key)
      = Some ("Missing or invalid " +:+ dq +:+ "kid" +:+ dq +:+ " (Key ID)")).
Proof.
  intros key.
  assert (Hkty : ~ kty_violation key -> strict_eq_string (prop key "kty") "OKP" = true).
  { intros H. destruct (strict_eq_string (prop key "kty") "OKP") eqn:E; [reflexivity|].
    exfalso. apply H. intros E'. apply strict_eq_string_true in E'. congruence. }
  assert (Hcrv : ~ crv_violation key -> strict_eq_string (prop key "crv") "Ed25519" = true).
  { intros H. destruct (strict_eq_string (prop key "crv") "Ed25519") eqn:E; [reflexivity|].
    exfalso. apply H. intros E'. apply strict_eq_string_true in E'. congruence. }
  assert (Hnot : forall v s, v <> Some (JString s) -> strict_eq_string v s = false).
  { intros v s H. destruct (strict_eq_string v s) eqn:E; [|reflexivity].
    apply strict_eq_string_true in E. contradiction. }
  assert (Hstr : forall v, (forall s, v <> Some (JString s)) ->
                           negb (truthy v) || negb (typeof_string v) = true).
  { intros v H. destruct v as [[]|]; try reflexivity.
    - cbn. now rewrite orb_true_r.
    - cbn. now rewrite orb_true_r.
    - exfalso. now apply (H s). }
  unfold validateJWK. change (negb (truthy (Some key)) || negb (typeof_object (Some key)))
    with false. cbv iota.
  repeat split.
  - intros H. now rewrite (Hnot _ _ H).
  - intros H1 H2. now rewrite (Hkty H1), (Hnot _ _ H2).
  - intros H1 H2 H3. now rewrite (Hkty H1), (Hcrv H2), (Hstr _ H3).
  - intros H1 H2 H3 H4. apply nonempty_string_true in H3.
    now rewrite (Hkty H1), (Hcrv H2), H3, (Hstr _ H4).
Qed.

Lemma validateKeys_valid_iff i keys :
  StructureCheck.isValid (validateKeys i keys) = true <-> Forall key_invariants keys.
Proof.
  revert i. induction keys as [|key rest IH]; intros i; cbn [validateKeys].
  - split; [constructor|reflexivity].
  - destruct (StructureCheck.isValid (validateJWK key)) eqn:E; cbn [negb].
    + rewrite IH, Forall_cons. apply validateJWK_valid_iff in E. tauto.
    + split; [discriminate|]. intros H. apply Forall_cons in H as [H _].
      apply validateJWK_valid_iff in H. congruence.
Qed.

(** The loop stops at the first key that [validateJWK] rejects and reports
    its index and reason. *)
Lemma validateKeys_first_invalid keys : forall i,
  StructureCheck.isValid (validateKeys i keys) = false ->
  exists j key reason,
    keys !! j = Some key
    /\ StructureCheck.isValid (validateJWK key) = false
    /\ StructureCheck.error (validateJWK key) = Some reason
    /\ (forall j' k, (j' < j)%nat -> keys !! j' = Some k ->
                     StructureCheck.isValid (validateJWK k) = true)
    /\ validateKeys i keys
       = StructureCheck.fail ("Invalid key at index " +:+ pretty (i + j)%nat +:+ ": " +:+ reason).
Proof.
  induction keys as [|key rest IH]; intros i; cbn [validateKeys].
  - discriminate.
  - destruct (StructureCheck.isValid (validateJWK key)) eqn:E; cbn [negb].
    + intros H. destruct (IH _ H) as (j & k & reason & Hj & Hk & Hr & Hbefore & Heq).
      exists (S j), k, reason. repeat split; try assumption.
      * intros [|j'] k' Hlt Hk'.
        -- cbn in Hk'. congruence.
        -- apply (Hbefore j' k'); [lia|exact Hk'].
      * rewrite Heq. now replace (S i + j)%nat with (i + S j)%nat by lia.
    + intros _. destruct (validateJWK_invalid_reason key E) as [reason Hr].
      exists 0%nat, key, reason. repeat split; try assumption.
      * intros j' k Hlt. lia.
      * rewrite Hr, Nat.add_0_r. reflexivity.
Qed.

Lemma validateDirectoryStructure_valid_iff data :
  StructureCheck.isValid (validateDirectoryStructure data) = true <-> directory_invariants data.
Proof.
  unfold validateDirectoryStructure, directory_invariants. split.
  - destruct data; cbn -[validateKeys]; try discriminate.
    + try destruct b; discriminate.
    + destruct (n =? 0); discriminate.
    + destruct (String.eqb s EmptyString); discriminate.
    + destruct (assoc "keys" fields) as [[| | | |keys|]|] eqn:Hk; try discriminate.
      destruct keys as [|key rest]; [discriminate|].
      cbn -[validateKeys]. intros H. apply validateKeys_valid_iff in H.
      exists fields, (key :: rest). auto.
  - intros (fields & keys & -> & Hk & Hne & Hall). cbn -[validateKeys]. rewrite Hk.
    destruct keys as [|key rest]; [contradiction|].
    cbn -[validateKeys]. now apply validateKeys_valid_iff.
Qed.

(** C7. A fetched directory body whose key array holds a key that is wrong in
    type, curve, [x] or [kid] is refused when it is parsed: the resolver
    returns the schema error naming the index of the first key that fails the
    check (at or before the given one, every earlier key being valid) and the
    constraint it breaks; no directory is returned and nothing is cached, so
    the key never reaches a lookup. *)
Theorem C7_invalid_key_rejected_at_parse amb url cacheTimeout w response fields keys n bad :
  miss amb url cacheTimeout w ->
  fetch amb url = Ret response ->
  Response.ok response = true ->
  Response.json response = Ret (JObject fields) ->
  assoc "keys" fields = Some (JArray keys) ->
  keys !! n = Some bad ->
  violates_key_invariants bad ->
  exists i key reason,
    (i <= n)%nat
    /\ keys !! i = Some key
    /\ ~ key_invariants key
    /\ (forall j k, (j < i)%nat -> keys !! j = Some k -> key_invariants k)
    /\ StructureCheck.error (validateJWK key) = Some reason
    /\ fetchSignaturesDirectory amb url cacheTimeout w
       = (Ret (DirectoryResult.mk false None
                 (Some ("Invalid directory structure: Invalid key at index "
                        +:+ pretty i +:+ ": " +:+ reason))
                 url (Date_now amb)),
          log_fetch url w)
    /\ (forall fs, key = JObject fs ->
        (kty_violation key ->
         reason = "Key type must be " +:+ dq +:+ "OKP" +:+ dq +:+ " for Ed25519")
        /\ (~ kty_violation key -> crv_violation key ->
            reason = "Curve must be " +:+ dq +:+ "Ed25519" +:+ dq)
        /\ (~ kty_violation key -> ~ crv_violation key -> x_violation key ->
            reason = "Missing or invalid " +:+ dq +:+ "x" +:+ dq +:+ " coordinate")
        /\ (~ kty_violation key -> ~ crv_violation key ->
            (exists s, prop key "x" = Some (JString s) /\ s <> EmptyString) ->
            kid_violation key ->
            reason = "Missing or invalid " +:+ dq +:+ "kid" +:+ dq +:+ " (Key ID)")).
Proof.
  intros Hm Hf Hok Hj Hkeys Hn Hbad.
  assert (Hinv : StructureCheck.isValid (validateKeys 0 keys) = false).
  { destruct (StructureCheck.isValid (validateKeys 0 keys)) eqn:E; [|reflexivity].
    apply validateKeys_valid_iff in E.
    rewrite Forall_lookup in E. specialize (E n bad Hn).
    apply validateJWK_valid_iff in E.
    rewrite (violation_rejected bad Hbad) in E. discriminate. }
  destruct (validateKeys_first_invalid keys 0%nat Hinv)
    as (i & key & reason & Hi & Hkey & Hreason & Hbefore & Heq).
  assert (Hdata : validateDirectoryStructure (JObject fields)
                  = StructureCheck.fail ("Invalid key at index " +:+ pretty i +:+ ": " +:+ reason)).
  { unfold validateDirectoryStructure. cbn -[validateKeys]. rewrite Hkeys.
    destruct keys as [|k0 rest]; [discriminate|]. cbn -[validateKeys]. exact Heq. }
  exists i, key, reason. repeat split.
  - destruct (le_lt_dec i n) as [Hle|Hlt]; [exact Hle|].
    specialize (Hbefore n bad Hlt Hn).
    rewrite (violation_rejected bad Hbad) in Hbefore. discriminate.
  - exact Hi.
  - intros H. apply validateJWK_valid_iff in H. congruence.
  - intros j k Hlt Hk. apply validateJWK_valid_iff. eauto.
  - exact Hreason.
  - rewrite resolver_miss by assumption. unfold try_catch.
    rewrite (fetch_fresh_invalid amb url _ _ _ _ Hf Hok Hj) by now rewrite Hdata.
    rewrite Hdata. reflexivity.
  - intros Hv. subst key. destruct (reason_identifies fs) as (H & _).
    specialize (H Hv). congruence.
  - intros H1 H2. subst key. destruct (reason_identifies fs) as (_ & H & _).
    specialize (H H1 H2). congruence.
  - intros H1 H2 H3. subst key. destruct (reason_identifies fs) as (_ & _ & H & _).
    specialize (H H1 H2 H3). congruence.
  - intros H1 H2 H3 H4. subst key. destruct (reason_identifies fs) as (_ & _ & _ & H).
    specialize (H H1 H2 H3 H4). congruence.
Qed.

Lemma C7_invalid_key_rejected_at_parse_witness :
  fetchSignaturesDirectory (serving (JObject invalidDirectoryFields) 0) example_url None
    empty_world
  = (Ret (DirectoryResult.mk false None
            (Some ("Invalid directory structure: Invalid key at index 1: Key type must be "
                   +:+ dq +:+ "OKP" +:+ dq +:+ " for Ed25519"))
            example_url 0),
     log_fetch example_url empty_world).
Proof.
  destruct (C7_invalid_key_rejected_at_parse
              (serving (JObject invalidDirectoryFields) 0) example_url None empty_world
              (Response.mk true 200 "OK" (Ret (JObject invalidDirectoryFields)))
              invalidDirectoryFields [validKey; rsaKey] 1%nat rsaKey)
    as (i & key & reason & Hle & Hi & Hbad & Hbefore & _ & Hrun & Hid).
  - intros c Hc. discriminate Hc.
  - reflexivity.
  - reflexivity.
  - reflexivity.
  - reflexivity.
  - reflexivity.
  - left. unfold kty_violation. cbn. discriminate.
  - destruct i as [|[|i]]; [| |lia].
    + exfalso. apply Hbad. injection Hi as <-. apply validateJWK_valid_iff. reflexivity.
    + injection Hi as <-.
      destruct (Hid _ eq_refl) as (Hkty & _).
      rewrite Hrun, Hkty; [reflexivity|].
      unfold kty_violation. cbn. discriminate.
Defined.

(** ** The verifier, case by case *)

Lemma verify_unfold amb request key directory w :
  verifySignatureWithWebBotAuth amb request key directory w =
    if env_is_test amb then
      (Ret false, log_console "Signature verification error: Mock verification failure" w)
    else
      match lib_verifierFromJWK amb key with
      | Throw e => (Ret false, log_console ("Signature verification error: " +:+ e) w)
      | Ret verifier =>
          match lib_verify amb request verifier with
          | Throw e => (Ret false, log_console ("Signature verification error: " +:+ e) w)
          | Ret _ => (Ret true, w)
          end
      end.
Proof.
  unfold verifySignatureWithWebBotAuth, try_catch, bind, lift, ret, modify,
    mock_verifierFromJWK, mock_verify.
  destruct (env_is_test amb); [reflexivity|].
  destruct (lib_verifierFromJWK amb key) as [verifier|e]; [|reflexivity].
  destruct (lib_verify amb request verifier); reflexivity.
Qed.

Lemma verify_returns amb request key directory w :
  exists b w',
    verifySignatureWithWebBotAuth amb request key directory w = (Ret b, w')
    /\ directoryCache w' = directoryCache w
    /\ fetchCalls w' = fetchCalls w.
Proof.
  rewrite verify_unfold.
  destruct (env_is_test amb); [eauto|].
  destruct (lib_verifierFromJWK amb key) as [verifier|e]; [|eauto].
  destruct (lib_verify amb request verifier); eauto.
Qed.

Lemma validate_unfold amb request config w :
  validateWebBotAuth amb request config w =
    match extractSignatureComponents request with
    | None => (Ret (failure "No HTTP Message Signature headers found" initial_details), w)
    | Some sc =>
        match fetchSignaturesDirectory amb (ValidationConfig.directoryUrl config)
                (ValidationConfig.cacheTimeout config) w with
        | (Throw e, w1) => (Ret (failure ("Validation error: " +:+ e) details_found), w1)
        | (Ret dr, w1) =>
            match usable_directory dr with
            | None =>
                (Ret (failure ("Failed to fetch signatures directory: "
                               +:+ template_string (DirectoryResult.error dr))
                        details_found), w1)
            | Some directory =>
                match findKeyById directory
                        (default EmptyString (SignatureComponents.keyId sc)) with
                | Throw e =>
                    (Ret (failure ("Validation error: " +:+ e) details_fetched), w1)
                | Ret None =>
                    (Ret (failure ("No matching key found for kid: "
                                   +:+ template_string (SignatureComponents.keyId sc))
                            details_fetched), w1)
                | Ret (Some key) =>
                    match verifySignatureWithWebBotAuth amb request key directory w1 with
                    | (Throw e, w2) =>
                        (Ret (failure ("Validation error: " +:+ e) details_matched), w2)
                    | (Ret false, w2) =>
                        (Ret (failure "Signature verification failed" details_matched), w2)
                    | (Ret true, w2) =>
                        if purpose_differs config directory then
                          match template (prop directory "purpose") with
                          | Throw e =>
                              (Ret (failure ("Validation error: " +:+ e)
                                      details_verified), w2)
                          | Ret got =>
                              (Ret (failure
                                      ("Purpose mismatch: expected " +:+ dq
                                       +:+ template_string (ValidationConfig.purpose config)
                                       +:+ dq +:+ ", got " +:+ dq +:+ got +:+ dq)
                                      details_verified), w2)
                          end
                        else
                          (Ret (ValidationResult.mk true None (Some details_verified)
                                  (Some (Metadata.mk (SignatureComponents.keyId sc)
                                           (prop directory "purpose")
                                           (Some (toISOString amb))))), w2)
                    end
                end
            end
        end
    end.
Proof.
  unfold validateWebBotAuth, try_catch, validate_body.
  destruct (extractSignatureComponents request) as [sc|]; [|reflexivity].
  unfold bind at 1. unfold set_details at 1, modify at 1. cbv beta iota.
  unfold bind at 1. unfold in_world at 1. unfold initial_details, with_signatureFound.
  cbv beta iota. cbn [signatureFound directoryFetched keyMatched signatureValid].
  destruct (fetchSignaturesDirectory amb (ValidationConfig.directoryUrl config)
              (ValidationConfig.cacheTimeout config) w) as [[dr|e] w1]; [|reflexivity].
  destruct (usable_directory dr) as [directory|]; [|reflexivity].
  unfold bind at 1. unfold set_details at 1, modify at 1. cbv beta iota.
  unfold bind at 1. unfold lift at 1.
  destruct (findKeyById directory (default EmptyString (SignatureComponents.keyId sc)))
    as [[key|]|e]; [|reflexivity|reflexivity].
  unfold bind at 1. unfold set_details at 1, modify at 1. cbv beta iota.
  unfold bind at 1. unfold in_world at 1.
  unfold with_directoryFetched, with_keyMatched.
  cbn [signatureFound directoryFetched keyMatched signatureValid].
  destruct (verifySignatureWithWebBotAuth amb request key directory w1) as [[[|]|e] w2];
    [|reflexivity|reflexivity].
  cbn [negb]. unfold bind at 1. unfold set_details at 1, modify at 1. cbv beta iota.
  destruct (purpose_differs config directory); [|reflexivity].
  unfold bind at 1. unfold lift at 1.
  destruct (template (prop directory "purpose")); reflexivity.
Qed.

Lemma extract_none_iff request :
  extractSignatureComponents request = None
  <-> header_truthy (Request.headers request !! "signature") = false
      \/ header_truthy (Request.headers request !! "signature-input") = false.
Proof.
  unfold extractSignatureComponents.
  destruct (Request.headers request !! "signature") as [s|];
    destruct (Request.headers request !! "signature-input") as [i|]; cbn; try tauto.
  destruct (String.eqb s EmptyString), (String.eqb i EmptyString); cbn;
    split; try tauto; try discriminate; intros [H|H]; discriminate.
Qed.

(** C6. A request without the [signature] header or without the
    [signature-input] header fails with MissingSignature, with
    [details.signatureFound = false], and the world is left as it was: no
    fetch is made and the cache is not touched. *)
Theorem C6_missing_signature amb request config w :
  Request.headers request !! "signature" = None
  \/ Request.headers request !! "signature-input" = None ->
  exists v d,
    validateWebBotAuth amb request config w = (Ret v, w)
    /\ MissingSignature v
    /\ ValidationResult.details v = Some d
    /\ signatureFound d = false.
Proof.
  intros H. rewrite validate_unfold.
  assert (E : extractSignatureComponents request = None).
  { apply extract_none_iff. destruct H as [-> | ->]; auto. }
  rewrite E. do 2 eexists. split; [reflexivity|]. repeat split.
Qed.

Lemma C6_missing_signature_witness :
  (exists v d,
      validateWebBotAuth (serving testDirectory 0) unsignedRequest testConfig empty_world
      = (Ret v, empty_world)
      /\ MissingSignature v
      /\ ValidationResult.details v = Some d /\ signatureFound d = false)
  /\ (exists v d,
         validateWebBotAuth (serving testDirectory 0) incompleteRequest testConfig empty_world
         = (Ret v, empty_world)
         /\ MissingSignature v
         /\ ValidationResult.details v = Some d /\ signatureFound d = false).
Proof.
  split.
  - apply (C6_missing_signature (serving testDirectory 0) unsignedRequest testConfig
             empty_world).
    left. reflexivity.
  - apply (C6_missing_signature (serving testDirectory 0) incompleteRequest testConfig
             empty_world).
    right. reflexivity.
Defined.

Lemma validate_returns amb request config w :
  exists v w', validateWebBotAuth amb request config w = (Ret v, w').
Proof.
  rewrite validate_unfold.
  destruct (extractSignatureComponents request) as [sc|]; [|eauto].
  destruct (fetchSignaturesDirectory _ _ _ _) as [[dr|e] w1]; [|eauto].
  destruct (usable_directory dr) as [directory|]; [|eauto].
  destruct (findKeyById _ _) as [[key|]|e]; [|eauto|eauto].
  destruct (verifySignatureWithWebBotAuth _ _ _ _ _) as [[[|]|e] w2]; [|eauto|eauto].
  destruct (purpose_differs config directory); [destruct (template _)|]; eauto.
Qed.

(** C9. Every call of [validateWebBotAuth] returns a result whose details
    are monotone: signatureValid implies keyMatched, keyMatched implies
    directoryFetched, directoryFetched implies signatureFound; on the success
    path, on every failure path and on the path through the [catch]
    clause. *)
Theorem C9_details_monotone amb request config w :
  exists v w' d,
    validateWebBotAuth amb request config w = (Ret v, w')
    /\ ValidationResult.details v = Some d
    /\ milestones_monotone d.
Proof.
  rewrite validate_unfold.
  assert (M0 : milestones_monotone initial_details) by (repeat split; discriminate).
  assert (M1 : milestones_monotone details_found) by (repeat split; discriminate).
  assert (M2 : milestones_monotone details_fetched) by (repeat split; discriminate).
  assert (M3 : milestones_monotone details_matched) by (repeat split; discriminate).
  assert (M4 : milestones_monotone details_verified) by (repeat split).
  destruct (extractSignatureComponents request) as [sc|]; [|eauto 6].
  destruct (fetchSignaturesDirectory _ _ _ _) as [[dr|e] w1]; [|eauto 6].
  destruct (usable_directory dr) as [directory|]; [|eauto 6].
  destruct (findKeyById _ _) as [[key|]|e]; [|eauto 6|eauto 6].
  destruct (verifySignatureWithWebBotAuth _ _ _ _ _) as [[[|]|e] w2]; [|eauto 6|eauto 6].
  destruct (purpose_differs config directory); [destruct (template _)|]; eauto 6.
Qed.

Lemma resolver_returns amb url cacheTimeout w :
  exists r w',
    fetchSignaturesDirectory amb url cacheTimeout w = (Ret r, w')
    /\ (DirectoryResult.success r = false ->
        DirectoryResult.directory r = None
        /\ (exists message, DirectoryResult.error r = Some message)
        /\ directoryCache w' = directoryCache w)
    /\ (DirectoryResult.success r = true ->
        exists data, DirectoryResult.directory r = Some data).
Proof.
  destruct (resolver_cases amb url cacheTimeout w)
    as [(c & _ & _ & Hr)|[(data & _ & _ & Hr)|(m & _ & _ & Hr)]];
    rewrite Hr; do 2 eexists; (split; [reflexivity|]); cbn; split;
    try discriminate; eauto.
Qed.

(** C4. Neither boundary lets an exception through.  The resolver always
    returns a DirectoryResult, and a failed one carries a message: a rejected
    fetch and a malformed body give the thrown message, a non-ok response its
    status, an invalid structure the reason.  The verifier always returns a
    ValidationResult, and when its resolver call fails with some message the
    result is a failure whose message ends in that very message. *)
Theorem C4_no_throw_across_boundaries amb url cacheTimeout request config w :
  (exists r w',
      fetchSignaturesDirectory amb url cacheTimeout w = (Ret r, w')
      /\ (DirectoryResult.success r = false ->
          exists message, DirectoryResult.error r = Some message)
      /\ (miss amb url cacheTimeout w ->
          (forall e, fetch amb url = Throw e ->
             DirectoryResult.success r = false
             /\ DirectoryResult.error r = Some ("Error fetching directory: " +:+ e))
          /\ (forall response, fetch amb url = Ret response ->
              (Response.ok response = false ->
               DirectoryResult.success r = false
               /\ DirectoryResult.error r
                  = Some ("Failed to fetch directory: " +:+ pretty (Response.status response)
                          +:+ " " +:+ Response.statusText response))
              /\ (forall e, Response.ok response = true ->
                    Response.json response = Throw e ->
                    DirectoryResult.success r = false
                    /\ DirectoryResult.error r = Some ("Error fetching directory: " +:+ e))
              /\ (forall data, Response.ok response = true ->
                    Response.json response = Ret data ->
                    StructureCheck.isValid (validateDirectoryStructure data) = false ->
                    DirectoryResult.success r = false
                    /\ DirectoryResult.error r
                       = Some ("Invalid directory structure: "
                               +:+ template_string
                                     (StructureCheck.error (validateDirectoryStructure data)))))))
  /\ (exists v w',
         validateWebBotAuth amb request config w = (Ret v, w')
         /\ forall sc r w1,
              extractSignatureComponents request = Some sc ->
              fetchSignaturesDirectory amb (ValidationConfig.directoryUrl config)
                (ValidationConfig.cacheTimeout config) w = (Ret r, w1) ->
              DirectoryResult.success r = false ->
              exists message,
                DirectoryResult.error r = Some message
                /\ ValidationResult.isValid v = false
                /\ ValidationResult.error v
                   = Some ("Failed to fetch signatures directory: " +:+ message)).
Proof.
  split.
  - destruct (resolver_returns amb url cacheTimeout w) as (r & w' & Hr & Hfail & _).
    exists r, w'. split; [exact Hr|]. split; [intros H; now apply Hfail|].
    intros Hm. rewrite resolver_miss in Hr by assumption. unfold try_catch in Hr.
    split.
    + intros e He. rewrite (fetch_fresh_rejected _ _ _ _ _ He) in Hr.
      injection Hr as <- _. now split.
    + intros response Hresp. split; [|split].
      * intros Hok. rewrite (fetch_fresh_not_ok _ _ _ _ _ Hresp Hok) in Hr.
        injection Hr as <- _. now split.
      * intros e Hok Hj. rewrite (fetch_fresh_malformed _ _ _ _ _ _ Hresp Hok Hj) in Hr.
        injection Hr as <- _. now split.
      * intros data Hok Hj Hv. rewrite (fetch_fresh_invalid _ _ _ _ _ _ Hresp Hok Hj Hv) in Hr.
        injection Hr as <- _. now split.
  - destruct (validate_returns amb request config w) as (v & w' & Hv).
    exists v, w'. split; [exact Hv|].
    intros sc r w1 Hsc Hr Hfail.
    destruct (resolver_returns amb (ValidationConfig.directoryUrl config)
                (ValidationConfig.cacheTimeout config) w) as (r' & w1' & Hr' & Hf & _).
    rewrite Hr in Hr'. injection Hr' as <- <-.
    destruct (Hf Hfail) as (_ & (message & Hmsg) & _).
    exists message. split; [exact Hmsg|].
    rewrite validate_unfold, Hsc, Hr in Hv.
    unfold usable_directory in Hv. rewrite Hfail in Hv. cbn [negb orb] in Hv.
    rewrite Hmsg in Hv. injection Hv as <- _. now split.
Qed.

Lemma C4_no_throw_across_boundaries_witness :
  exists v w',
    validateWebBotAuth (not_found 0) (signedRequest "test-key") testConfig empty_world
    = (Ret v, w')
    /\ ValidationResult.isValid v = false
    /\ ValidationResult.error v
       = Some "Failed to fetch signatures directory: Failed to fetch directory: 404 Not Found".
Proof.
  destruct (C4_no_throw_across_boundaries (not_found 0) example_url (Some 1000)
              (signedRequest "test-key") testConfig empty_world)
    as ((r & w1 & Hr & _ & Hmodes) & (v & w' & Hv & Hcarry)).
  assert (Hm : miss (not_found 0) example_url (Some 1000) empty_world).
  { intros c Hc. discriminate Hc. }
  destruct (Hmodes Hm) as (_ & Hresp).
  destruct (Hresp _ eq_refl) as (Hnot_ok & _).
  destruct (Hnot_ok eq_refl) as (Hfail & Herr).
  destruct (Hcarry _ r w1 eq_refl Hr Hfail) as (message & Hmsg & Hinvalid & Herror).
  exists v, w'. split; [exact Hv|]. split; [exact Hinvalid|].
  rewrite Herror. rewrite Herr in Hmsg. injection Hmsg as <-. reflexivity.
Defined.

Lemma extract_some request sc :
  extractSignatureComponents request = Some sc ->
  exists input,
    Request.headers request !! "signature-input" = Some input
    /\ SignatureComponents.keyId sc = match_quoted "keyid" input.
Proof.
  unfold extractSignatureComponents.
  destruct (Request.headers request !! "signature") as [s|]; [|discriminate].
  destruct (Request.headers request !! "signature-input") as [i|]; [|discriminate].
  destruct (negb _ || negb _); [discriminate|].
  intros [= <-]. eauto.
Qed.

(** C8. When verification succeeds, the metadata's key identifier is the
    [keyid] parsed from the request's [signature-input] header and its purpose
    is the purpose the resolved directory declares. *)
Theorem C8_success_metadata amb request config w v w' :
  validateWebBotAuth amb request config w = (Ret v, w') ->
  ValidationResult.isValid v = true ->
  exists input dr w1 directory,
    Request.headers request !! "signature-input" = Some input
    /\ fetchSignaturesDirectory amb (ValidationConfig.directoryUrl config)
         (ValidationConfig.cacheTimeout config) w = (Ret dr, w1)
    /\ DirectoryResult.success dr = true
    /\ DirectoryResult.directory dr = Some directory
    /\ ValidationResult.metadata v
       = Some (Metadata.mk (match_quoted "keyid" input) (prop directory "purpose")
                 (Some (toISOString amb))).
Proof.
  rewrite validate_unfold.
  destruct (extractSignatureComponents request) as [sc|] eqn:Hsc;
    [|intros [= <- _]; discriminate].
  destruct (extract_some _ _ Hsc) as (input & Hin & Hkid).
  destruct (fetchSignaturesDirectory _ _ _ _) as [[dr|e] w1];
    [|intros [= <- _]; discriminate].
  destruct (usable_directory dr) as [directory|] eqn:Hu;
    [|intros [= <- _]; discriminate].
  destruct (findKeyById _ _) as [[key|]|e]; try (intros [= <- _]; discriminate).
  destruct (verifySignatureWithWebBotAuth _ _ _ _ _) as [[[|]|e] w2];
    try (intros [= <- _]; discriminate).
  destruct (purpose_differs config directory); [destruct (template _)|];
    intros [= <- _]; try discriminate.
  intros _. exists input, dr, w1, directory.
  unfold usable_directory in Hu.
  destruct (DirectoryResult.success dr); [|discriminate].
  destruct (truthy (DirectoryResult.directory dr)); [|discriminate].
  cbn in Hu. rewrite Hkid. auto.
Qed.

Lemma C8_success_metadata_witness :
  exists input dr w1 directory,
    Request.headers (signedRequest "test-key") !! "signature-input" = Some input
    /\ fetchSignaturesDirectory (serving testDirectory 0) example_url (Some 1000) empty_world
       = (Ret dr, w1)
    /\ DirectoryResult.success dr = true
    /\ DirectoryResult.directory dr = Some directory
    /\ Some (Metadata.mk (Some "test-key") (Some (JString "test"))
               (Some "2025-04-01T00:00:00.000Z"))
       = Some (Metadata.mk (match_quoted "keyid" input) (prop directory "purpose")
                 (Some "2025-04-01T00:00:00.000Z")).
Proof.
  apply (C8_success_metadata (serving testDirectory 0) (signedRequest "test-key") testConfig
           empty_world
           (ValidationResult.mk true None (Some details_verified)
              (Some (Metadata.mk (Some "test-key") (Some (JString "test"))
                       (Some "2025-04-01T00:00:00.000Z"))))
           (set_directoryCache {[ example_url := CacheEntry.mk testDirectory 0 ]}
              (log_fetch example_url empty_world))).
  - vm_compute. reflexivity.
  - reflexivity.
Defined.

(** ** Temporal validity and purpose *)

(** Step 3 on, once the headers are parsed, the directory is resolved and a
    key carries the requested identifier. *)
Lemma validate_matched amb request config w sc dr w1 directory key :
  extractSignatureComponents request = Some sc ->
  fetchSignaturesDirectory amb (ValidationConfig.directoryUrl config)
    (ValidationConfig.cacheTimeout config) w = (Ret dr, w1) ->
  usable_directory dr = Some directory ->
  findKeyById directory (default EmptyString (SignatureComponents.keyId sc))
  = Ret (Some key) ->
  exists b w2,
    verifySignatureWithWebBotAuth amb request key directory w1 = (Ret b, w2)
    /\ validateWebBotAuth amb request config w =
         (Ret (if b then
                 if purpose_differs config directory then
                   match template (prop directory "purpose") with
                   | Throw e => failure ("Validation error: " +:+ e) details_verified
                   | Ret got =>
                       failure ("Purpose mismatch: expected " +:+ dq
                                +:+ template_string (ValidationConfig.purpose config)
                                +:+ dq +:+ ", got " +:+ dq +:+ got +:+ dq)
                         details_verified
                   end
                 else
                   ValidationResult.mk true None (Some details_verified)
                     (Some (Metadata.mk (SignatureComponents.keyId sc)
                              (prop directory "purpose") (Some (toISOString amb))))
               else failure "Signature verification failed" details_matched),
          w2).
Proof.
  intros Hsc Hr Hu Hk. rewrite validate_unfold, Hsc, Hr, Hu, Hk.
  destruct (verify_returns amb request key directory w1) as (b & w2 & Hv & _).
  rewrite Hv. exists b, w2. split; [reflexivity|].
  destruct b; [|reflexivity].
  destruct (purpose_differs config directory); [|reflexivity].
  destruct (template (prop directory "purpose")); reflexivity.
Qed.

(** C1, as the code has it.  The validity window of a key is not consulted:
    whenever the key identifier of the signature-input matches a key of the
    resolved directory, at whatever instant relative to the key's not-before
    and not-after, step 3 matches the key ([details.keyMatched = true]), the
    result is not UnknownKey, and the verdict is that of steps 4 and 5. *)
Theorem C1_validity_window_not_consulted amb request config w sc dr w1 directory key :
  extractSignatureComponents request = Some sc ->
  fetchSignaturesDirectory amb (ValidationConfig.directoryUrl config)
    (ValidationConfig.cacheTimeout config) w = (Ret dr, w1) ->
  usable_directory dr = Some directory ->
  findKeyById directory (default EmptyString (SignatureComponents.keyId sc))
  = Ret (Some key) ->
  exists v w' d,
    validateWebBotAuth amb request config w = (Ret v, w')
    /\ ValidationResult.details v = Some d
    /\ keyMatched d = true
    /\ ~ UnknownKey v
    /\ (ValidationResult.isValid v = true <->
        fst (verifySignatureWithWebBotAuth amb request key directory w1) = Ret true
        /\ purpose_differs config directory = false).
Proof.
  intros Hsc Hr Hu Hk.
  destruct (validate_matched _ _ _ _ _ _ _ _ _ Hsc Hr Hu Hk) as (b & w2 & Hv & Hrun).
  rewrite Hrun, Hv. cbn [fst].
  destruct b;
    [destruct (purpose_differs config directory);
     [destruct (template (prop directory "purpose"))|]|];
    do 3 eexists; (split; [reflexivity|]); (split; [reflexivity|]);
    (split; [reflexivity|]); split;
    try (intros (_ & kid & Hkid); cbn in Hkid; discriminate Hkid);
    cbn; split; try tauto; try discriminate; intros (H1 & H2); discriminate.
Qed.

Lemma C1_validity_window_not_consulted_witness :
  outside_validity_window 0 mockKey1
  /\ exists v w' d,
    validateWebBotAuth (serving mockDirectory 0) (signedRequest "test-key-1") ragConfig
      empty_world = (Ret v, w')
    /\ ValidationResult.details v = Some d
    /\ keyMatched d = true
    /\ ~ UnknownKey v
    /\ (ValidationResult.isValid v = true <->
        fst (verifySignatureWithWebBotAuth (serving mockDirectory 0)
               (signedRequest "test-key-1") mockKey1 mockDirectory
               (world_after_fetch example_url mockDirectory 0)) = Ret true
        /\ purpose_differs ragConfig mockDirectory = false).
Proof.
  split.
  { left. exists 1743465600000. split; [reflexivity|lia]. }
  eapply (C1_validity_window_not_consulted (serving mockDirectory 0)
            (signedRequest "test-key-1") ragConfig empty_world).
  - reflexivity.
  - vm_compute. reflexivity.
  - reflexivity.
  - reflexivity.
Defined.

(** Counterexample to C1 as stated: at instant 0 the first key of the test
    directory is not yet valid (its not-before is 1743465600000), and at
    instant 2000000000000 it has expired (its not-after is 1743552000000);
    a request naming it is nevertheless verified successfully at both
    instants, where the claim wants UnknownKey. *)
Lemma C1_counterexample :
  findKeyById mockDirectory "test-key-1" = Ret (Some mockKey1)
  /\ outside_validity_window 0 mockKey1
  /\ outside_validity_window 2000000000000 mockKey1
  /\ (exists v w',
         validateWebBotAuth (serving mockDirectory 0) (signedRequest "test-key-1")
           ragConfig empty_world = (Ret v, w')
         /\ ValidationResult.isValid v = true
         /\ ~ UnknownKey v)
  /\ (exists v w',
         validateWebBotAuth (serving mockDirectory 2000000000000)
           (signedRequest "test-key-1") ragConfig empty_world = (Ret v, w')
         /\ ValidationResult.isValid v = true
         /\ ~ UnknownKey v).
Proof.
  split; [reflexivity|]. split; [|split; [|split]].
  - left. exists 1743465600000. split; [reflexivity|lia].
  - right. exists 1743552000000. split; [reflexivity|lia].
  - do 2 eexists. split; [vm_compute; reflexivity|]. split; [reflexivity|].
    intros (H & _). discriminate H.
  - do 2 eexists. split; [vm_compute; reflexivity|]. split; [reflexivity|].
    intros (H & _). discriminate H.
Qed.


(** A purpose that is absent, or a string, a number, a boolean or [null],
    renders in a message; so does an object without a property of its own
    named [toString]. *)
Lemma template_plain v :
  match v with
  | None | Some JNull | Some (JBool _) | Some (JNumber _) | Some (JString _) => True
  | Some (JObject fields) => assoc "toString" fields = None
  | Some (JArray _) => False
  end ->
  exists got, template v = Ret got.
Proof.
  destruct v as [[| [|] |n|s|items|fields]|]; cbn; try contradiction; eauto.
  intros ->. eauto.
Qed.




(** ** Step 4 *)

(** C3, as the code has it.  Step 4 never throws, makes no fetch and leaves
    the cache alone (it writes a console line when it fails); its verdict does
    not depend on the state of the world, but it does depend on the
    environment flag: under [NODE_ENV = "test"] it is always a failure,
    otherwise it is a success exactly when the library builds a verifier for
    the key and accepts the request with it. *)
Theorem C3_verification_outcome amb request key directory w :
  exists b w',
    verifySignatureWithWebBotAuth amb request key directory w = (Ret b, w')
    /\ fetchCalls w' = fetchCalls w
    /\ directoryCache w' = directoryCache w
    /\ (forall u, fst (verifySignatureWithWebBotAuth amb request key directory u) = Ret b)
    /\ (NODE_ENV amb = Some "test" -> b = false)
    /\ (NODE_ENV amb <> Some "test" ->
        (b = true <->
         exists verifier,
           lib_verifierFromJWK amb key = Ret verifier
           /\ lib_verify amb request verifier = Ret tt))
    /\ (b = true -> w' = w).
Proof.
  assert (Htest : env_is_test amb = true <-> NODE_ENV amb = Some "test").
  { unfold env_is_test. destruct (NODE_ENV amb) as [v|]; split; try discriminate.
    - intros H. apply String.eqb_eq in H. now subst.
    - intros [= ->]. reflexivity. }
  setoid_rewrite verify_unfold.
  destruct (env_is_test amb) eqn:E.
  - assert (Ht : NODE_ENV amb = Some "test") by now apply Htest.
    do 2 eexists. split; [reflexivity|].
    split; [reflexivity|]. split; [reflexivity|]. split; [reflexivity|].
    split; [reflexivity|]. split; [|discriminate].
    intros Hn. contradiction.
  - assert (Hn : NODE_ENV amb <> Some "test").
    { intros H. apply Htest in H. discriminate. }
    destruct (lib_verifierFromJWK amb key) as [verifier|e] eqn:Hv.
    + destruct (lib_verify amb request verifier) as [[]|e] eqn:Hl.
      * do 2 eexists. split; [reflexivity|].
        split; [reflexivity|]. split; [reflexivity|]. split; [reflexivity|].
        split; [intros Ht; contradiction|]. split; [|reflexivity].
        intros _. split; [eauto|reflexivity].
      * do 2 eexists. split; [reflexivity|].
        split; [reflexivity|]. split; [reflexivity|]. split; [reflexivity|].
        split; [reflexivity|]. split; [|discriminate].
        intros _. split; [discriminate|].
        intros (v' & [= <-] & Hl'). congruence.
    + do 2 eexists. split; [reflexivity|].
      split; [reflexivity|]. split; [reflexivity|]. split; [reflexivity|].
      split; [reflexivity|]. split; [|discriminate].
      intros _. split; [discriminate|].
      intros (v' & Hv' & _). discriminate Hv'.
Qed.

Lemma C3_verification_outcome_witness :
  fst (verifySignatureWithWebBotAuth (serving mockDirectory 0) (signedRequest "test-key-1")
         mockKey1 mockDirectory empty_world) = Ret true
  /\ fst (verifySignatureWithWebBotAuth
            (with_NODE_ENV (Some "test") (serving mockDirectory 0))
            (signedRequest "test-key-1") mockKey1 mockDirectory empty_world) = Ret false.
Proof.
  split.
  - destruct (C3_verification_outcome (serving mockDirectory 0) (signedRequest "test-key-1")
                mockKey1 mockDirectory empty_world)
      as (b & w' & Hrun & _ & _ & _ & _ & Hlib & _).
    rewrite Hrun. cbn [fst]. f_equal. apply Hlib.
    + discriminate.
    + exists (LibVerifier mockKey1). split; reflexivity.
  - destruct (C3_verification_outcome
                (with_NODE_ENV (Some "test") (serving mockDirectory 0))
                (signedRequest "test-key-1") mockKey1 mockDirectory empty_world)
      as (b & w' & Hrun & _ & _ & _ & Htest & _).
    rewrite Hrun. cbn [fst]. f_equal. apply Htest. reflexivity.
Defined.

(** Counterexample to C3 as stated: the same request, key and library give
    a failure under [NODE_ENV = "test"] and a success under
    [NODE_ENV = "production"], and the failing run leaves a line on the
    console. *)
Lemma C3_counterexample :
  verifySignatureWithWebBotAuth (with_NODE_ENV (Some "test") (serving mockDirectory 0))
    (signedRequest "test-key-1") mockKey1 mockDirectory empty_world
  = (Ret false,
     mkWorld ∅ [] ["Signature verification error: Mock verification failure"])
  /\ verifySignatureWithWebBotAuth
       (with_NODE_ENV (Some "production") (serving mockDirectory 0))
       (signedRequest "test-key-1") mockKey1 mockDirectory empty_world
     = (Ret true, empty_world).
Proof. split; reflexivity. Qed.

(** ** The cache invariant *)

Lemma resolver_cache amb url cacheTimeout w o w' :
  fetchSignaturesDirectory amb url cacheTimeout w = (o, w') ->
  directoryCache w' = directoryCache w
  \/ exists data,
       delivered amb url = Some data
       /\ o = Ret (DirectoryResult.mk true (Some data) None url (Date_now amb))
       /\ directoryCache w' = <[url := CacheEntry.mk data (Date_now amb)]> (directoryCache w).
Proof.
  destruct (resolver_cases amb url cacheTimeout w)
    as [(c & _ & _ & Hr)|[(data & _ & Hd & Hr)|(m & _ & _ & Hr)]];
    rewrite Hr; intros [= <- <-]; eauto.
Qed.

Lemma delivered_valid amb url data :
  delivered amb url = Some data ->
  exists response,
    fetch amb url = Ret response
    /\ Response.ok response = true
    /\ Response.json response = Ret data
    /\ StructureCheck.isValid (validateDirectoryStructure data) = true.
Proof.
  unfold delivered.
  destruct (fetch amb url) as [response|e]; [|discriminate].
  destruct (Response.ok response) eqn:Hok; [|discriminate].
  destruct (Response.json response) as [d|e] eqn:Hj; [|discriminate].
  destruct (StructureCheck.isValid (validateDirectoryStructure d)) eqn:Hv; [|discriminate].
  intros [= <-]. exists response. auto.
Qed.

Lemma resolver_preserves_well_formed amb url cacheTimeout w o w' :
  cache_well_formed w ->
  fetchSignaturesDirectory amb url cacheTimeout w = (o, w') ->
  cache_well_formed w'.
Proof.
  intros Hwf Hr u entry. destruct (resolver_cache _ _ _ _ _ _ Hr) as [->|(data & Hd & _ & ->)].
  - apply Hwf.
  - destruct (decide (url = u)) as [->|Hne].
    + rewrite lookup_insert_eq. intros [= <-]. cbn.
      apply delivered_valid in Hd as (response & _ & _ & _ & Hv).
      now apply validateDirectoryStructure_valid_iff.
    + rewrite lookup_insert_ne by assumption. apply Hwf.
Qed.

(** The verifier touches the cache only through its resolver call. *)
Lemma validate_cache amb request config w o w' :
  validateWebBotAuth amb request config w = (o, w') ->
  directoryCache w' = directoryCache w
  \/ exists o1 w1,
       fetchSignaturesDirectory amb (ValidationConfig.directoryUrl config)
         (ValidationConfig.cacheTimeout config) w = (o1, w1)
       /\ directoryCache w' = directoryCache w1.
Proof.
  rewrite validate_unfold.
  destruct (extractSignatureComponents request) as [sc|]; [|intros [= _ <-]; now left].
  destruct (fetchSignaturesDirectory _ _ _ _) as [o1 w1] eqn:Hr.
  intros H. right. exists o1, w1. split; [reflexivity|].
  destruct o1 as [dr|e]; [|now injection H as _ <-].
  destruct (usable_directory dr) as [directory|]; [|now injection H as _ <-].
  destruct (findKeyById _ _) as [[key|]|e]; try (now injection H as _ <-).
  destruct (verify_returns amb request key directory w1) as (b & w2 & Hv & Hc & _).
  rewrite Hv in H. rewrite <- Hc.
  destruct b;
    [destruct (purpose_differs config directory);
     [destruct (template (prop directory "purpose"))|]|];
    now injection H as _ <-.
Qed.

Lemma reachable_well_formed w : reachable w -> cache_well_formed w.
Proof.
  induction 1 as [fetches lines|amb url ct w o w' _ IH Hr
                  |amb request config w o w' _ IH Hr|w o w' _ IH Hr].
  - intros u entry H. cbn in H. rewrite lookup_empty in H. discriminate.
  - eapply resolver_preserves_well_formed; eauto.
  - destruct (validate_cache _ _ _ _ _ _ Hr) as [Hc|(o1 & w1 & Hr1 & Hc)];
      intros u entry; rewrite Hc; [apply IH|].
    eapply resolver_preserves_well_formed; eauto.
  - unfold clearDirectoryCache, modify in Hr. injection Hr as _ <-.
    intros u entry H. cbn in H. rewrite lookup_empty in H. discriminate.
Qed.

(** C10. In every world the process can reach, each cache entry holds a
    directory with a non-empty key array whose keys all satisfy the Key
    invariants; and a call of [fetchSignaturesDirectory] from there returns,
    leaves the cache as it was whenever it fails (a rejected fetch, a non-ok
    response, a malformed body, an invalid structure), and changes it only
    by storing under the URL a body that was fetched with an ok response and
    passed the structure check. *)
Theorem C10_cache_holds_only_valid_directories w :
  reachable w ->
  cache_well_formed w
  /\ forall amb url cacheTimeout,
       exists r w',
         fetchSignaturesDirectory amb url cacheTimeout w = (Ret r, w')
         /\ cache_well_formed w'
         /\ (DirectoryResult.success r = false -> directoryCache w' = directoryCache w)
         /\ (forall e, fetch amb url = Throw e -> directoryCache w' = directoryCache w)
         /\ (forall response,
               fetch amb url = Ret response ->
               Response.ok response = false
               \/ (exists e, Response.json response = Throw e)
               \/ (exists data, Response.json response = Ret data
                                /\ StructureCheck.isValid (validateDirectoryStructure data) = false) ->
               directoryCache w' = directoryCache w)
         /\ (directoryCache w' <> directoryCache w ->
             exists response data,
               fetch amb url = Ret response
               /\ Response.ok response = true
               /\ Response.json response = Ret data
               /\ StructureCheck.isValid (validateDirectoryStructure data) = true
               /\ directory_invariants data
               /\ DirectoryResult.success r = true
               /\ directoryCache w'
                  = <[url := CacheEntry.mk data (Date_now amb)]> (directoryCache w)).
Proof.
  intros Hreach. pose proof (reachable_well_formed w Hreach) as Hwf.
  split; [exact Hwf|]. intros amb url cacheTimeout.
  destruct (resolver_returns amb url cacheTimeout w) as (r & w' & Hr & Hfail & _).
  exists r, w'. split; [exact Hr|].
  split; [exact (resolver_preserves_well_formed _ _ _ _ _ _ Hwf Hr)|].
  split; [intros H; now apply Hfail|].
  destruct (resolver_cache _ _ _ _ _ _ Hr) as [Hsame|(data & Hd & Ho & Hc)].
  - split; [auto|]. split; [auto|]. intros Hne. contradiction.
  - destruct (delivered_valid _ _ _ Hd) as (response & Hf & Hok & Hj & Hv).
    split; [intros e He; congruence|]. split.
    + intros response' Hf' Hbad. exfalso.
      assert (response' = response) by congruence. subst response'.
      destruct Hbad as [H|[(e & H)|(data' & H & Hv')]]; congruence.
    + intros _. exists response, data. injection Ho as ->.
      repeat split; try assumption. now apply validateDirectoryStructure_valid_iff.
Qed.

Lemma C10_cache_holds_only_valid_directories_witness :
  cache_well_formed (world_after_fetch example_url mockDirectory 0)
  /\ exists r w',
       fetchSignaturesDirectory (not_found 5000000) example_url None
         (world_after_fetch example_url mockDirectory 0) = (Ret r, w')
       /\ directoryCache w' = directoryCache (world_after_fetch example_url mockDirectory 0).
Proof.
  assert (Hreach : reachable (world_after_fetch example_url mockDirectory 0)).
  { apply (reachable_fetch (serving mockDirectory 0) example_url None empty_world
             (Ret (DirectoryResult.mk true (Some mockDirectory) None example_url 0))).
    - apply reachable_start.
    - vm_compute. reflexivity. }
  destruct (C10_cache_holds_only_valid_directories _ Hreach) as (Hwf & Hcall).
  split; [exact Hwf|].
  destruct (Hcall (not_found 5000000) example_url None)
    as (r & w' & Hr & _ & _ & _ & Hbad & _).
  exists r, w'. split; [exact Hr|].
  apply (Hbad _ eq_refl). left. reflexivity.
Defined.

(** ** The scenarios of the test suite *)

Example parse_signature_input :
  match_quoted "keyid"
    ("keyid=" +:+ dq +:+ "test-key" +:+ dq +:+ ",alg=" +:+ dq +:+ "ed25519" +:+ dq
     +:+ ",created=1234567890,expires=1234567899") = Some "test-key"
  /\ match_digits "created" "x,created=,created=12a" = Some "12"
  /\ match_quoted "tag" ("etag=" +:+ dq +:+ dq +:+ ",tag=" +:+ dq +:+ "w" +:+ dq) = Some "w"
  /\ match_quoted "tag" ("tag=" +:+ dq +:+ "w") = None.
Proof. repeat split. Qed.

Example test_fetch_and_parse_valid_directory :
  fetchSignaturesDirectory (serving mockDirectory 7) example_url None empty_world
  = (Ret (DirectoryResult.mk true (Some mockDirectory) None example_url 7),
     world_after_fetch example_url mockDirectory 7).
Proof. vm_compute. reflexivity. Qed.

Example test_empty_keys_array :
  fetchSignaturesDirectory (serving (JObject [("keys", JArray [])]) 7) example_url None
    empty_world
  = (Ret (DirectoryResult.mk false None
            (Some "Invalid directory structure: Directory keys array cannot be empty")
            example_url 7),
     log_fetch example_url empty_world).
Proof. vm_compute. reflexivity. Qed.

Example test_cache_directory_results :
  exists r1 w1 r2 w2,
    fetchSignaturesDirectory (serving mockDirectory 0) example_url None empty_world
    = (Ret r1, w1)
    /\ fetchSignaturesDirectory (serving mockDirectory 50) example_url None w1 = (Ret r2, w2)
    /\ DirectoryResult.success r2 = true
    /\ fetchCalls w2 = [example_url].
Proof.
  do 4 eexists. split; [vm_compute; reflexivity|].
  split; [vm_compute; reflexivity|]. split; reflexivity.
Qed.

Example test_components_extracted_in_test_environment :
  validateWebBotAuth (with_NODE_ENV (Some "test") (serving testDirectory 0))
    (signedRequest "test-key") testConfig empty_world
  = (Ret (failure "Signature verification failed" details_matched),
     mkWorld {[ example_url := CacheEntry.mk testDirectory 0 ]} [example_url]
       ["Signature verification error: Mock verification failure"]).
Proof. vm_compute. reflexivity. Qed.

Example test_find_key_by_id :
  findKeyById mockDirectory "test-key-1" = Ret (Some mockKey1)
  /\ findKeyById mockDirectory "non-existent-key" = Ret None
  /\ findKeyById (JObject [("keys", JArray [])]) "test-key-1" = Ret None.
Proof. repeat split. Qed.

Example test_directory_not_found :
  exists v w' d,
    validateWebBotAuth (not_found 0) (signedRequest "test-key") testConfig empty_world
    = (Ret v, w')
    /\ DirectoryUnavailable v
    /\ ValidationResult.details v = Some d
    /\ signatureFound d = true
    /\ directoryFetched d = false.
Proof.
  do 3 eexists. split; [vm_compute; reflexivity|].
  split; [split; [reflexivity|eexists; reflexivity]|]. repeat split.
Qed.

(** ** Key lookup *)

Lemma find_key_spec keys kid :
  JNull ∉ keys ->
  (exists i key,
      find_key keys kid = Ret (Some key)
      /\ keys !! i = Some key
      /\ has_kid kid key
      /\ forall j k, (j < i)%nat -> keys !! j = Some k -> ~ has_kid kid k)
  \/ (find_key keys kid = Ret None /\ forall k, k ∈ keys -> ~ has_kid kid k).
Proof.
  induction keys as [|key rest IH]; intros Hnull.
  - right. split; [reflexivity|]. intros k Hk. inversion Hk.
  - assert (Hkey : key <> JNull) by (intros ->; apply Hnull; constructor).
    assert (Hrest : JNull ∉ rest) by (intros H; apply Hnull; now constructor).
    assert (Hstep : find_key (key :: rest) kid
                    = if strict_eq_string (prop key "kid") kid then Ret (Some key)
                      else find_key rest kid).
    { destruct key; try reflexivity. contradiction. }
    rewrite Hstep. destruct (strict_eq_string (prop key "kid") kid) eqn:E.
    + left. exists 0%nat, key. apply strict_eq_string_true in E.
      repeat split; try assumption. intros j k Hj. lia.
    + assert (Hno : ~ has_kid kid key).
      { intros H. apply strict_eq_string_true in H. congruence. }
      destruct (IH Hrest) as [(i & k & Hf & Hi & Hk & Hbefore)|(Hf & Hnone)].
      * left. exists (S i), k. repeat split; try assumption.
        intros [|j] k' Hj Hk'.
        -- cbn in Hk'. now injection Hk' as <-.
        -- apply (Hbefore j k'); [lia|exact Hk'].
      * right. split; [exact Hf|]. intros k Hk.
        apply elem_of_cons in Hk as [->|Hk]; auto.
Qed.

(** X1. On a directory whose [keys] array holds no [null], [findKeyById]
    does not throw and scans in declaration order: it returns the earliest
    key carrying the identifier, or nothing exactly when no key carries
    it. *)
Theorem X1_findKeyById_first_match fields keys kid :
  assoc "keys" fields = Some (JArray keys) ->
  JNull ∉ keys ->
  (exists i key,
      findKeyById (JObject fields) kid = Ret (Some key)
      /\ keys !! i = Some key
      /\ has_kid kid key
      /\ forall j k, (j < i)%nat -> keys !! j = Some k -> ~ has_kid kid k)
  \/ (findKeyById (JObject fields) kid = Ret None
      /\ forall k, k ∈ keys -> ~ has_kid kid k).
Proof.
  intros Hk Hnull. unfold findKeyById. rewrite Hk. now apply find_key_spec.
Qed.

Lemma X1_findKeyById_first_match_witness :
  findKeyById collidingDirectory "shared" = Ret (Some firstKey)
  /\ findKeyById collidingDirectory "absent" = Ret None.
Proof.
  assert (Hnull : JNull ∉ [validKey; firstKey; secondKey]).
  { intros H. repeat (apply elem_of_cons in H as [H|H]; [discriminate H|]).
    inversion H. }
  split.
  - destruct (X1_findKeyById_first_match
                [("keys", JArray [validKey; firstKey; secondKey])]
                [validKey; firstKey; secondKey] "shared" eq_refl Hnull)
      as [(i & key & Hf & _)|(_ & Hnone)].
    + pose proof Hf as Hkey. vm_compute in Hkey. injection Hkey as <-. exact Hf.
    + exfalso. apply (Hnone firstKey); [|reflexivity].
      apply elem_of_cons. right. apply elem_of_cons. now left.
  - destruct (X1_findKeyById_first_match
                [("keys", JArray [validKey; firstKey; secondKey])]
                [validKey; firstKey; secondKey] "absent" eq_refl Hnull)
      as [(i & key & _ & Hi & Hkid & _)|(Hf & _)].
    + exfalso. destruct i as [|[|[|i]]]; cbn in Hi; try discriminate;
        injection Hi as <-; discriminate Hkid.
    + exact Hf.
Defined.

(** ** Malformed bodies *)

Lemma resolver_invalid_body amb url cacheTimeout w response data reason :
  miss amb url cacheTimeout w ->
  fetch amb url = Ret response ->
  Response.ok response = true ->
  Response.json response = Ret data ->
  validateDirectoryStructure data = StructureCheck.fail reason ->
  fetchSignaturesDirectory amb url cacheTimeout w
  = (Ret (DirectoryResult.mk false None (Some ("Invalid directory structure: " +:+ reason))
            url (Date_now amb)),
     log_fetch url w).
Proof.
  intros Hm Hf Hok Hj Hv. rewrite resolver_miss by assumption. unfold try_catch.
  rewrite (fetch_fresh_invalid amb url _ _ _ _ Hf Hok Hj) by now rewrite Hv.
  now rewrite Hv.
Qed.

(** X2. A fetched body that is not a directory at all is refused with the
    message for its shape, nothing is cached and no directory is returned:
    [null] and primitives are "not an object"; an array, or an object whose
    [keys] is absent or no array, lacks the "keys" array; an object with an
    empty [keys] array "cannot be empty". *)
Theorem X2_malformed_body_rejected amb url cacheTimeout w response data :
  miss amb url cacheTimeout w ->
  fetch amb url = Ret response ->
  Response.ok response = true ->
  Response.json response = Ret data ->
  let refused reason :=
    fetchSignaturesDirectory amb url cacheTimeout w
    = (Ret (DirectoryResult.mk false None
              (Some ("Invalid directory structure: " +:+ reason)) url (Date_now amb)),
       log_fetch url w) in
  ((forall items, data <> JArray items) -> (forall fields, data <> JObject fields) ->
   refused "Directory data is not an object")
  /\ ((exists items, data = JArray items)
      \/ (exists fields, data = JObject fields
                         /\ forall keys, assoc "keys" fields <> Some (JArray keys)) ->
      refused ("Directory must contain a " +:+ dq +:+ "keys" +:+ dq +:+ " array"))
  /\ ((exists fields, data = JObject fields /\ assoc "keys" fields = Some (JArray [])) ->
      refused "Directory keys array cannot be empty").
Proof.
  intros Hm Hf Hok Hj refused. subst refused. cbv beta.
  split; [|split].
  - intros Harr Hobj. apply (resolver_invalid_body _ _ _ _ _ _ _ Hm Hf Hok Hj).
    destruct data as [| [|] |n|s|items|fields]; try reflexivity.
    + unfold validateDirectoryStructure. cbn. now destruct (n =? 0).
    + unfold validateDirectoryStructure. cbn. now destruct (String.eqb s EmptyString).
    + exfalso. now apply (Harr items).
    + exfalso. now apply (Hobj fields).
  - intros [(items & ->)|(fields & -> & Hk)];
      apply (resolver_invalid_body _ _ _ _ _ _ _ Hm Hf Hok Hj); [reflexivity|].
    unfold validateDirectoryStructure. cbn -[validateKeys].
    destruct (assoc "keys" fields) as [[| | | |keys|]|]; try reflexivity.
    exfalso. now apply (Hk keys).
  - intros (fields & -> & Hk).
    apply (resolver_invalid_body _ _ _ _ _ _ _ Hm Hf Hok Hj).
    unfold validateDirectoryStructure. cbn -[validateKeys]. now rewrite Hk.
Qed.

Lemma X2_malformed_body_rejected_witness :
  fetchSignaturesDirectory (serving (JString "maintenance") 3) example_url None empty_world
  = (Ret (DirectoryResult.mk false None
            (Some "Invalid directory structure: Directory data is not an object")
            example_url 3),
     log_fetch example_url empty_world)
  /\ fetchSignaturesDirectory (serving (JObject [("keys", JString "none")]) 3) example_url
       None empty_world
     = (Ret (DirectoryResult.mk false None
               (Some ("Invalid directory structure: Directory must contain a "
                      +:+ dq +:+ "keys" +:+ dq +:+ " array"))
               example_url 3),
        log_fetch example_url empty_world)
  /\ fetchSignaturesDirectory (serving (JObject [("keys", JArray [])]) 3) example_url
       None empty_world
     = (Ret (DirectoryResult.mk false None
               (Some "Invalid directory structure: Directory keys array cannot be empty")
               example_url 3),
        log_fetch example_url empty_world).
Proof.
  assert (Hm : forall a, miss a example_url None empty_world).
  { intros a c Hc. discriminate Hc. }
  split; [|split].
  - destruct (X2_malformed_body_rejected (serving (JString "maintenance") 3) example_url
                None empty_world _ _ (Hm _) eq_refl eq_refl eq_refl) as (H & _).
    apply H; discriminate.
  - destruct (X2_malformed_body_rejected (serving (JObject [("keys", JString "none")]) 3)
                example_url None empty_world _ _ (Hm _) eq_refl eq_refl eq_refl)
      as (_ & H & _).
    apply H. right. eexists. split; [reflexivity|]. discriminate.
  - destruct (X2_malformed_body_rejected (serving (JObject [("keys", JArray [])]) 3)
                example_url None empty_world _ _ (Hm _) eq_refl eq_refl eq_refl)
      as (_ & _ & H).
    apply H. eexists. split; reflexivity.
Defined.

(** X3. The optional timestamps are type-checked after the four required
    fields: a key right in type, curve, [x] and [kid] whose [nbf] is present
    and not a number ([null] included) is rejected with the not-before
    message, and one whose [nbf] is absent or a number but whose [exp] is
    present and not a number with the expiration message. *)
Theorem X3_timestamp_fields_type_checked fields x kid :
  assoc "kty" fields = Some (JString "OKP") ->
  assoc "crv" fields = Some (JString "Ed25519") ->
  assoc "x" fields = Some (JString x) -> x <> EmptyString ->
  assoc "kid" fields = Some (JString kid) -> kid <> EmptyString ->
  (forall v, assoc "nbf" fields = Some v -> (forall n, v <> JNumber n) ->
     validateJWK (JObject fields)
     = StructureCheck.fail ("Invalid " +:+ dq +:+ "nbf" +:+ dq +:+ " (Not Before) timestamp"))
  /\ (forall v,
        assoc "nbf" fields = None \/ (exists n, assoc "nbf" fields = Some (JNumber n)) ->
        assoc "exp" fields = Some v -> (forall n, v <> JNumber n) ->
        validateJWK (JObject fields)
        = StructureCheck.fail
            ("Invalid " +:+ dq +:+ "exp" +:+ dq +:+ " (Expiration) timestamp")).
Proof.
  intros Hkty Hcrv Hx Hxne Hkid Hkidne.
  assert (E1 : strict_eq_string (prop (JObject fields) "kty") "OKP" = true)
    by now apply strict_eq_string_true.
  assert (E2 : strict_eq_string (prop (JObject fields) "crv") "Ed25519" = true)
    by now apply strict_eq_string_true.
  assert (E3 : negb (truthy (prop (JObject fields) "x"))
               || negb (typeof_string (prop (JObject fields) "x")) = false)
    by (apply nonempty_string_true; eauto).
  assert (E4 : negb (truthy (prop (JObject fields) "kid"))
               || negb (typeof_string (prop (JObject fields) "kid")) = false)
    by (apply nonempty_string_true; eauto).
  assert (Hbad : forall name v, assoc name fields = Some v -> (forall n, v <> JNumber n) ->
            defined (prop (JObject fields) name)
            && negb (typeof_number (prop (JObject fields) name)) = true).
  { intros name v Hv Hn. cbn [prop]. rewrite Hv.
    destruct v; try reflexivity. exfalso. now apply (Hn n). }
  unfold validateJWK.
  change (negb (truthy (Some (JObject fields))) || negb (typeof_object (Some (JObject fields))))
    with false.
  cbv iota. rewrite E1, E2, E3, E4. cbn [negb]. split.
  - intros v Hv Hn. now rewrite (Hbad _ _ Hv Hn).
  - intros v Hnbf Hv Hn.
    apply (optional_number_true (prop (JObject fields) "nbf")) in Hnbf.
    now rewrite Hnbf, (Hbad _ _ Hv Hn).
Qed.

Lemma X3_timestamp_fields_type_checked_witness :
  validateJWK nullNbfKey
  = StructureCheck.fail ("Invalid " +:+ dq +:+ "nbf" +:+ dq +:+ " (Not Before) timestamp").
Proof.
  assert (Hx : "test-public-key" <> EmptyString) by discriminate.
  assert (Hkid : "test-key" <> EmptyString) by discriminate.
  destruct (X3_timestamp_fields_type_checked
              [("kty", JString "OKP"); ("crv", JString "Ed25519");
               ("kid", JString "test-key"); ("x", JString "test-public-key");
               ("nbf", JNull)] "test-public-key" "test-key"
              eq_refl eq_refl eq_refl Hx eq_refl Hkid)
    as (H & _).
  apply (H JNull); [reflexivity|discriminate].
Defined.

(** ** The cache *)

(** X4. Store then look up: after a resolve that fetched and stored a
    directory at instant [t], a resolve of the same URL at an instant less
    than the second call's window after [t] returns that directory and the
    original fetch instant [t], leaves the world as it is and makes no fetch,
    whatever the network would answer by then. *)
Theorem X4_resolve_then_hit amb1 amb2 url cacheTimeout1 cacheTimeout2 w data :
  miss amb1 url cacheTimeout1 w ->
  delivered amb1 url = Some data ->
  Date_now amb2 - Date_now amb1 < freshnessWindow cacheTimeout2 ->
  exists w1,
    fetchSignaturesDirectory amb1 url cacheTimeout1 w
    = (Ret (DirectoryResult.mk true (Some data) None url (Date_now amb1)), w1)
    /\ fetchSignaturesDirectory amb2 url cacheTimeout2 w1
       = (Ret (DirectoryResult.mk true (Some data) None url (Date_now amb1)), w1)
    /\ fetchCalls w1 = (fetchCalls w ++ [url])%list.
Proof.
  intros Hm Hd Hlt. eexists. split; [now apply resolver_miss_delivered|].
  split; [|reflexivity].
  apply (resolver_hit amb2 url cacheTimeout2 _ (CacheEntry.mk data (Date_now amb1))).
  - cbn. apply lookup_insert_eq.
  - exact Hlt.
Qed.

Lemma X4_resolve_then_hit_witness :
  exists w1,
    fetchSignaturesDirectory (serving mockDirectory 0) example_url None empty_world
    = (Ret (DirectoryResult.mk true (Some mockDirectory) None example_url 0), w1)
    /\ fetchSignaturesDirectory (not_found 3599999) example_url None w1
       = (Ret (DirectoryResult.mk true (Some mockDirectory) None example_url 0), w1)
    /\ fetchCalls w1 = [example_url].
Proof.
  apply (X4_resolve_then_hit (serving mockDirectory 0) (not_found 3599999) example_url
           None None empty_world mockDirectory).
  - intros c Hc. discriminate Hc.
  - reflexivity.
  - reflexivity.
Defined.

(** X5. The cache key is the exact URL string: a resolve of one URL leaves
    the entry of every other URL string, and the console, as they were, so a
    URL that was not cached still has to be fetched afterwards. *)
Theorem X5_other_urls_untouched amb url cacheTimeout w o w' other :
  fetchSignaturesDirectory amb url cacheTimeout w = (o, w') ->
  other <> url ->
  directoryCache w' !! other = directoryCache w !! other
  /\ console w' = console w
  /\ (directoryCache w !! other = None ->
      forall amb2 cacheTimeout2, exists r w2,
        fetchSignaturesDirectory amb2 other cacheTimeout2 w' = (Ret r, w2)
        /\ fetchCalls w2 = (fetchCalls w' ++ [other])%list).
Proof.
  intros Hr Hne.
  assert (Hsame : directoryCache w' !! other = directoryCache w !! other).
  { destruct (resolver_cache _ _ _ _ _ _ Hr) as [->|(data & _ & _ & ->)]; [reflexivity|].
    apply lookup_insert_ne. congruence. }
  split; [exact Hsame|]. split.
  - destruct (resolver_cases amb url cacheTimeout w)
      as [(c & _ & _ & E)|[(data & _ & _ & E)|(m & _ & _ & E)]];
      rewrite E in Hr; now injection Hr as _ <-.
  - intros Hnone amb2 cacheTimeout2.
    assert (Hm : miss amb2 other cacheTimeout2 w').
    { intros c Hc. congruence. }
    destruct (resolver_cases amb2 other cacheTimeout2 w')
      as [(c & Hc & Hf & _)|[(data & _ & _ & E)|(m & _ & _ & E)]].
    + exfalso. exact (Hm c Hc Hf).
    + rewrite E. eauto.
    + rewrite E. eauto.
Qed.

Lemma X5_other_urls_untouched_witness :
  exists r w2,
    fetchSignaturesDirectory (serving mockDirectory 1)
      "https://example.com/.well-known/http-message-signatures-directory/" None
      (world_after_fetch example_url mockDirectory 0) = (Ret r, w2)
    /\ fetchCalls w2
       = [example_url; "https://example.com/.well-known/http-message-signatures-directory/"].
Proof.
  destruct (X5_other_urls_untouched (serving mockDirectory 0) example_url None empty_world
              (Ret (DirectoryResult.mk true (Some mockDirectory) None example_url 0))
              (world_after_fetch example_url mockDirectory 0)
              "https://example.com/.well-known/http-message-signatures-directory/")
    as (_ & _ & H).
  - vm_compute. reflexivity.
  - discriminate.
  - apply (H eq_refl (serving mockDirectory 1) None).
Defined.

(** X6. [clearDirectoryCache] empties the cache and touches nothing else, so
    the next resolve of any URL, under any window, makes a fetch. *)
Theorem X6_clear_forces_fetch w amb url cacheTimeout :
  exists w0 r w',
    clearDirectoryCache w = (Ret tt, w0)
    /\ directoryCache w0 = ∅
    /\ fetchCalls w0 = fetchCalls w
    /\ console w0 = console w
    /\ fetchSignaturesDirectory amb url cacheTimeout w0 = (Ret r, w')
    /\ fetchCalls w' = (fetchCalls w ++ [url])%list.
Proof.
  exists (set_directoryCache ∅ w).
  assert (Hm : miss amb url cacheTimeout (set_directoryCache ∅ w)).
  { intros c Hc. cbn in Hc. rewrite lookup_empty in Hc. discriminate. }
  destruct (resolver_cases amb url cacheTimeout (set_directoryCache ∅ w))
    as [(c & Hc & Hf & _)|[(data & _ & _ & E)|(m & _ & _ & E)]].
  - exfalso. exact (Hm c Hc Hf).
  - rewrite E. do 2 eexists. repeat split.
  - rewrite E. do 2 eexists. repeat split.
Qed.

(** X7. A successful refetch overwrites the stale entry wholesale: the URL
    then maps to the new body with the new fetch instant, and the set of
    cached URLs, hence the size of the cache, is unchanged. *)
Theorem X7_stale_entry_replaced amb url cacheTimeout w c data :
  directoryCache w !! url = Some c ->
  ~ fresh amb cacheTimeout c ->
  delivered amb url = Some data ->
  exists w',
    fetchSignaturesDirectory amb url cacheTimeout w
    = (Ret (DirectoryResult.mk true (Some data) None url (Date_now amb)), w')
    /\ directoryCache w' !! url = Some (CacheEntry.mk data (Date_now amb))
    /\ dom (directoryCache w') = dom (directoryCache w)
    /\ size (directoryCache w') = size (directoryCache w).
Proof.
  intros Hc Hstale Hd.
  assert (Hm : miss amb url cacheTimeout w).
  { intros c' Hc'. assert (c' = c) by congruence. now subst. }
  eexists. split; [now apply resolver_miss_delivered|]. cbn.
  assert (Hdom : dom (<[url := CacheEntry.mk data (Date_now amb)]> (directoryCache w))
                 = dom (directoryCache w)).
  { rewrite dom_insert_L. apply elem_of_dom_2 in Hc.
    apply set_eq. intros u. rewrite elem_of_union, elem_of_singleton.
    split; [intros [->|Hu]; assumption|auto]. }
  split; [apply lookup_insert_eq|]. split; [exact Hdom|].
  rewrite <- !size_dom. now rewrite Hdom.
Qed.

Lemma X7_stale_entry_replaced_witness :
  exists w',
    fetchSignaturesDirectory (serving testDirectory 3600000) example_url None
      (world_after_fetch example_url mockDirectory 0)
    = (Ret (DirectoryResult.mk true (Some testDirectory) None example_url 3600000), w')
    /\ directoryCache w' !! example_url = Some (CacheEntry.mk testDirectory 3600000)
    /\ dom (directoryCache w')
       = dom (directoryCache (world_after_fetch example_url mockDirectory 0))
    /\ size (directoryCache w')
       = size (directoryCache (world_after_fetch example_url mockDirectory 0)).
Proof.
  apply (X7_stale_entry_replaced (serving testDirectory 3600000) example_url None
           (world_after_fetch example_url mockDirectory 0)
           (CacheEntry.mk mockDirectory 0) testDirectory).
  - reflexivity.
  - unfold fresh. vm_compute. discriminate.
  - reflexivity.
Defined.

(** X8. Every DirectoryResult is well-formed: it echoes the URL it was asked
    for; it has a directory exactly when it is a success and an error message
    exactly when it is a failure; its timestamp is the instant of the call, or,
    for a cache hit, the instant the cached entry was fetched; and the resolver
    writes nothing to the console. *)
Theorem X8_directory_result_well_formed amb url cacheTimeout w :
  exists r w',
    fetchSignaturesDirectory amb url cacheTimeout w = (Ret r, w')
    /\ DirectoryResult.url r = url
    /\ (DirectoryResult.success r = true <-> exists d, DirectoryResult.directory r = Some d)
    /\ (DirectoryResult.success r = false <-> exists e, DirectoryResult.error r = Some e)
    /\ (DirectoryResult.timestamp r = Date_now amb
        \/ exists c, directoryCache w !! url = Some c
                     /\ fresh amb cacheTimeout c
                     /\ DirectoryResult.directory r = Some (CacheEntry.data c)
                     /\ DirectoryResult.timestamp r = CacheEntry.timestamp c)
    /\ console w' = console w.
Proof.
  destruct (resolver_cases amb url cacheTimeout w)
    as [(c & Hc & Hf & E)|[(data & _ & _ & E)|(m & _ & _ & E)]];
    rewrite E; do 2 eexists; (split; [reflexivity|]); cbn;
    (split; [reflexivity|]).
  - split; [split; eauto|]. split; [split; [discriminate|intros (e & He); discriminate]|].
    split; [|reflexivity]. right. exists c. auto.
  - split; [split; eauto|]. split; [split; [discriminate|intros (e & He); discriminate]|].
    split; [now left|reflexivity].
  - split; [split; [discriminate|intros (d & Hd); discriminate]|].
    split; [split; eauto|]. split; [now left|reflexivity].
Qed.

Lemma reachable_resolve_valid w amb url cacheTimeout r w' directory :
  reachable w ->
  fetchSignaturesDirectory amb url cacheTimeout w = (Ret r, w') ->
  DirectoryResult.directory r = Some directory ->
  directory_invariants directory.
Proof.
  intros Hreach Hr Hd.
  pose proof (reachable_well_formed w Hreach) as Hwf.
  destruct (resolver_cases amb url cacheTimeout w)
    as [(c & Hc & _ & E)|[(data & _ & Hdel & E)|(m & _ & _ & E)]];
    rewrite E in Hr; injection Hr as <- _; cbn in Hd; try discriminate;
    injection Hd as <-.
  - exact (Hwf _ _ Hc).
  - apply delivered_valid in Hdel as (response & _ & _ & _ & Hv).
    now apply validateDirectoryStructure_valid_iff.
Qed.

Lemma valid_directory_no_null directory :
  directory_invariants directory ->
  exists fields keys,
    directory = JObject fields
    /\ assoc "keys" fields = Some (JArray keys)
    /\ Forall key_invariants keys
    /\ JNull ∉ keys.
Proof.
  intros (fields & keys & -> & Hk & _ & Hall). exists fields, keys.
  repeat split; try assumption.
  intros H. rewrite Forall_forall in Hall. destruct (Hall _ H) as (fs & Hfs & _).
  discriminate Hfs.
Qed.

(** X9. From any world the process can reach, a resolve that succeeds, be it
    from the cache or from the network, hands out a directory that satisfies
    the Directory invariants, so a lookup in it cannot throw. *)
Theorem X9_resolved_directory_valid w amb url cacheTimeout r w' directory :
  reachable w ->
  fetchSignaturesDirectory amb url cacheTimeout w = (Ret r, w') ->
  DirectoryResult.directory r = Some directory ->
  directory_invariants directory
  /\ forall kid, exists found, findKeyById directory kid = Ret found.
Proof.
  intros Hreach Hr Hd.
  pose proof (reachable_resolve_valid _ _ _ _ _ _ _ Hreach Hr Hd) as Hinv.
  split; [exact Hinv|]. intros kid.
  destruct (valid_directory_no_null _ Hinv) as (fields & keys & -> & Hk & _ & Hnull).
  unfold findKeyById. rewrite Hk.
  destruct (find_key_spec keys kid Hnull) as [(i & key & Hf & _)|(Hf & _)];
    rewrite Hf; eauto.
Qed.

Lemma X9_resolved_directory_valid_witness :
  directory_invariants mockDirectory
  /\ forall kid, exists found, findKeyById mockDirectory kid = Ret found.
Proof.
  apply (X9_resolved_directory_valid (world_after_fetch example_url mockDirectory 0)
           (not_found 10) example_url None
           (DirectoryResult.mk true (Some mockDirectory) None example_url 0)
           (world_after_fetch example_url mockDirectory 0)).
  - apply (reachable_fetch (serving mockDirectory 0) example_url None empty_world
             (Ret (DirectoryResult.mk true (Some mockDirectory) None example_url 0))).
    + apply reachable_start.
    + vm_compute. reflexivity.
  - vm_compute. reflexivity.
  - reflexivity.
Defined.

(** ** The verifier as a whole *)

Lemma usable_some dr directory :
  usable_directory dr = Some directory ->
  DirectoryResult.success dr = true /\ DirectoryResult.directory dr = Some directory.
Proof.
  unfold usable_directory.
  destruct (DirectoryResult.success dr); [|discriminate].
  destruct (truthy (DirectoryResult.directory dr)); [|discriminate].
  cbn. auto.
Qed.

(** In a reachable world, the lookup of step 3 returns: a key carrying the
    identifier, or nothing when no key carries it. *)
Lemma reachable_lookup w amb config dr w1 directory kid :
  reachable w ->
  fetchSignaturesDirectory amb (ValidationConfig.directoryUrl config)
    (ValidationConfig.cacheTimeout config) w = (Ret dr, w1) ->
  usable_directory dr = Some directory ->
  exists fields keys,
    directory = JObject fields
    /\ assoc "keys" fields = Some (JArray keys)
    /\ Forall key_invariants keys
    /\ ((exists key, findKeyById directory kid = Ret (Some key)
                     /\ key ∈ keys /\ has_kid kid key)
        \/ (findKeyById directory kid = Ret None
            /\ forall k, k ∈ keys -> ~ has_kid kid k)).
Proof.
  intros Hreach Hr Hu. apply usable_some in Hu as (_ & Hd).
  pose proof (reachable_resolve_valid _ _ _ _ _ _ _ Hreach Hr Hd) as Hinv.
  destruct (valid_directory_no_null _ Hinv) as (fields & keys & -> & Hk & Hall & Hnull).
  exists fields, keys. repeat split; try assumption.
  unfold findKeyById. rewrite Hk.
  destruct (find_key_spec keys kid Hnull) as [(i & key & Hf & Hi & Hkid & _)|(Hf & Hnone)].
  - left. exists key. repeat split; try assumption.
    apply list_elem_of_lookup. eauto.
  - right. auto.
Qed.

(** Induction over parsed values that reaches the elements of arrays. *)
Lemma Json_array_ind (P : Json -> Prop) :
  P JNull -> (forall b, P (JBool b)) -> (forall n, P (JNumber n)) ->
  (forall s, P (JString s)) ->
  (forall items, Forall P items -> P (JArray items)) ->
  (forall fields, P (JObject fields)) ->
  forall v, P v.
Proof.
  intros HN HB HZ HS HA HO.
  exact (fix go (v : Json) : P v :=
           match v with
           | JNull => HN
           | JBool b => HB b
           | JNumber n => HZ n
           | JString s => HS s
           | JArray items =>
               HA items
                 ((fix all (l : list Json) : Forall P l :=
                     match l with
                     | [] => ltac:(constructor)
                     | x :: l' => ltac:(constructor; [exact (go x)|exact (all l')])
                     end) items)
           | JObject fields => HO fields
           end).
Qed.

(** Rendering a parsed value fails in one way only. *)
Lemma to_string_throws : forall v e,
  to_string v = Throw e -> e = "Cannot convert object to primitive value".
Proof.
  induction v as [|b|n|s|items IH|fields] using Json_array_ind; intros e;
    cbn [to_string]; try discriminate.
  - now destruct b.
  - assert (Hparts : forall e', render_parts to_string items = Throw e' ->
                                e' = "Cannot convert object to primitive value").
    { induction IH as [|item rest Hitem _ IHrest]; intros e'; cbn [render_parts].
      - discriminate.
      - destruct (match item with JNull => Ret EmptyString | _ => to_string item end)
          as [part|e''] eqn:Hpart.
        + destruct (render_parts to_string rest) as [parts|e3]; [discriminate|].
          intros [= <-]. now apply IHrest.
        + intros [= <-]. destruct item; try discriminate Hpart; exact (Hitem _ Hpart). }
    destruct (render_parts to_string items) as [parts|e']; [discriminate|].
    intros [= <-]. now apply Hparts.
  - destruct (assoc "toString" fields); [|discriminate]. now intros [= <-].
Qed.

(** X10. From any world the process can reach, the [catch] clause of
    [validateWebBotAuth] is taken in one situation only: at step 5, when the
    purposes differ and the purpose the directory declares cannot be rendered
    in the message; the result then carries all four milestones.  In every
    other case the result is a success or falls under one of the five kinds of
    the taxonomy. *)
Theorem X10_catch_only_on_opaque_purpose w amb request config :
  reachable w ->
  exists v w',
    validateWebBotAuth amb request config w = (Ret v, w')
    /\ (classified v
        \/ exists dr w1 directory,
             fetchSignaturesDirectory amb (ValidationConfig.directoryUrl config)
               (ValidationConfig.cacheTimeout config) w = (Ret dr, w1)
             /\ DirectoryResult.directory dr = Some directory
             /\ purpose_differs config directory = true
             /\ template (prop directory "purpose")
                = Throw "Cannot convert object to primitive value"
             /\ v = failure "Validation error: Cannot convert object to primitive value"
                      details_verified).
Proof.
  intros Hreach. rewrite validate_unfold. unfold classified.
  destruct (extractSignatureComponents request) as [sc|].
  2:{ do 2 eexists. split; [reflexivity|]. left. right. left. split; reflexivity. }
  destruct (resolver_returns amb (ValidationConfig.directoryUrl config)
              (ValidationConfig.cacheTimeout config) w) as (dr & w1 & Hr & _).
  rewrite Hr.
  destruct (usable_directory dr) as [directory|] eqn:Hu.
  2:{ do 2 eexists. split; [reflexivity|]. left. right. right. left.
      split; [reflexivity|]. eexists. reflexivity. }
  destruct (reachable_lookup _ _ _ _ _ _
              (default EmptyString (SignatureComponents.keyId sc)) Hreach Hr Hu)
    as (fields & keys & _ & _ & _ & [(key & Hf & _)|(Hf & _)]); rewrite Hf.
  2:{ do 2 eexists. split; [reflexivity|]. left. right. right. right. left.
      split; [reflexivity|]. eexists. reflexivity. }
  destruct (verify_returns amb request key directory w1) as (b & w2 & Hv & _).
  rewrite Hv. destruct b.
  - destruct (purpose_differs config directory) eqn:Hp.
    + destruct (template (prop directory "purpose")) as [got|e] eqn:Ht.
      * do 2 eexists. split; [reflexivity|]. left. do 5 right.
        split; [reflexivity|]. do 2 eexists. reflexivity.
      * assert (e = "Cannot convert object to primitive value") as ->.
        { destruct (prop directory "purpose") as [j|]; [|discriminate Ht].
          exact (to_string_throws _ _ Ht). }
        do 2 eexists. split; [reflexivity|]. right.
        exists dr, w1, directory. apply usable_some in Hu as (_ & Hd). auto.
    + do 2 eexists. split; [reflexivity|]. left. now left.
  - do 2 eexists. split; [reflexivity|]. left. do 4 right. left. split; reflexivity.
Qed.

Lemma X10_catch_only_on_opaque_purpose_witness :
  exists v w',
    validateWebBotAuth (serving opaquePurposeDirectory 0) (signedRequest "test-key-1")
      ragConfig empty_world = (Ret v, w')
    /\ ValidationResult.error v
       = Some "Validation error: Cannot convert object to primitive value".
Proof.
  destruct (X10_catch_only_on_opaque_purpose empty_world (serving opaquePurposeDirectory 0)
              (signedRequest "test-key-1") ragConfig (reachable_start [] []))
    as (v & w' & Hv & [Hclass|(dr & w1 & directory & _ & _ & _ & _ & ->)]).
  - exists v, w'. split; [exact Hv|].
    pose proof Hv as Hrun. vm_compute in Hrun. injection Hrun as <- _. reflexivity.
  - do 2 eexists. split; [exact Hv|]. reflexivity.
Defined.

(** X11. From any world the process can reach, a request whose key
    identifier no key of the resolved directory carries fails with UnknownKey,
    the message naming the identifier, with [directoryFetched = true] and
    [keyMatched = false]; step 4 is not run. *)
Theorem X11_unknown_key w amb request config sc kid dr w1 directory keys :
  reachable w ->
  extractSignatureComponents request = Some sc ->
  SignatureComponents.keyId sc = Some kid ->
  fetchSignaturesDirectory amb (ValidationConfig.directoryUrl config)
    (ValidationConfig.cacheTimeout config) w = (Ret dr, w1) ->
  usable_directory dr = Some directory ->
  prop directory "keys" = Some (JArray keys) ->
  (forall k, k ∈ keys -> ~ has_kid kid k) ->
  validateWebBotAuth amb request config w
  = (Ret (failure ("No matching key found for kid: " +:+ kid) details_fetched), w1).
Proof.
  intros Hreach Hsc Hkid Hr Hu Hkeys Hnone.
  rewrite validate_unfold, Hsc, Hr, Hu, Hkid. cbn [default from_option id template_string].
  destruct (reachable_lookup _ _ _ _ _ _ kid Hreach Hr Hu)
    as (fields & keys' & -> & Hk & _ & [(key & _ & Hin & Hhas)|(Hf & _)]).
  - exfalso. cbn in Hkeys. rewrite Hk in Hkeys. injection Hkeys as ->.
    exact (Hnone key Hin Hhas).
  - change (id kid) with kid. now rewrite Hf.
Qed.

Lemma X11_unknown_key_witness :
  validateWebBotAuth (serving mockDirectory 0) (signedRequest "non-existent-key") ragConfig
    empty_world
  = (Ret (failure "No matching key found for kid: non-existent-key" details_fetched),
     world_after_fetch example_url mockDirectory 0).
Proof.
  eapply (X11_unknown_key empty_world (serving mockDirectory 0)
            (signedRequest "non-existent-key") ragConfig).
  - apply reachable_start.
  - reflexivity.
  - reflexivity.
  - vm_compute. reflexivity.
  - reflexivity.
  - reflexivity.
  - intros k Hk Hhas.
    repeat (apply elem_of_cons in Hk as [->|Hk]; [discriminate Hhas|]).
    inversion Hk.
Defined.

(** X12. A signature-input without a [keyid] parameter is no parse failure:
    from any world the process can reach, once the directory is resolved the
    request fails with UnknownKey for the identifier rendered "undefined",
    because no validated key has an empty identifier. *)
Theorem X12_missing_keyid w amb request config sc dr w1 directory :
  reachable w ->
  extractSignatureComponents request = Some sc ->
  SignatureComponents.keyId sc = None ->
  fetchSignaturesDirectory amb (ValidationConfig.directoryUrl config)
    (ValidationConfig.cacheTimeout config) w = (Ret dr, w1) ->
  usable_directory dr = Some directory ->
  validateWebBotAuth amb request config w
  = (Ret (failure "No matching key found for kid: undefined" details_fetched), w1).
Proof.
  intros Hreach Hsc Hkid Hr Hu.
  rewrite validate_unfold, Hsc, Hr, Hu, Hkid. cbn [default from_option template_string].
  destruct (reachable_lookup _ _ _ _ _ _ EmptyString Hreach Hr Hu)
    as (fields & keys & -> & Hk & Hall & [(key & _ & Hin & Hhas)|(Hf & _)]).
  - exfalso. rewrite Forall_forall in Hall.
    destruct (Hall key Hin) as (fs & -> & _ & _ & _ & (kid & Hkid' & Hne) & _).
    unfold has_kid in Hhas. cbn in Hhas. congruence.
  - now rewrite Hf.
Qed.

Lemma X12_missing_keyid_witness :
  validateWebBotAuth (serving mockDirectory 0) noKeyidRequest ragConfig empty_world
  = (Ret (failure "No matching key found for kid: undefined" details_fetched),
     world_after_fetch example_url mockDirectory 0).
Proof.
  eapply (X12_missing_keyid empty_world (serving mockDirectory 0) noKeyidRequest ragConfig).
  - apply reachable_start.
  - reflexivity.
  - reflexivity.
  - vm_compute. reflexivity.
  - reflexivity.
Defined.

(** X13. Under [NODE_ENV = "test"] no request is ever verified: whatever the
    request, the configuration, the directory and the library, the result of
    [validateWebBotAuth] is a failure. *)
Theorem X13_test_environment_never_valid amb request config w :
  NODE_ENV amb = Some "test" ->
  exists v w',
    validateWebBotAuth amb request config w = (Ret v, w')
    /\ ValidationResult.isValid v = false.
Proof.
  intros Henv.
  assert (Htest : env_is_test amb = true) by (unfold env_is_test; now rewrite Henv).
  rewrite validate_unfold.
  destruct (extractSignatureComponents request) as [sc|]; [|eauto].
  destruct (fetchSignaturesDirectory _ _ _ _) as [[dr|e] w1]; [|eauto].
  destruct (usable_directory dr) as [directory|]; [|eauto].
  destruct (findKeyById _ _) as [[key|]|e]; [|eauto|eauto].
  rewrite verify_unfold, Htest. eauto.
Qed.

Lemma X13_test_environment_never_valid_witness :
  exists v w',
    validateWebBotAuth (with_NODE_ENV (Some "test") (serving mockDirectory 0))
      (signedRequest "test-key-1") ragConfig empty_world = (Ret v, w')
    /\ ValidationResult.isValid v = false.
Proof.
  apply (X13_test_environment_never_valid
           (with_NODE_ENV (Some "test") (serving mockDirectory 0))).
  reflexivity.
Defined.

(** X14. Every ValidationResult is well-formed: a success has all four
    milestones set, no error, and metadata stamped with the result instant; a
    failure has an error message and no metadata. *)
Theorem X14_validation_result_well_formed amb request config w :
  exists v w',
    validateWebBotAuth amb request config w = (Ret v, w')
    /\ (ValidationResult.isValid v = true ->
        ValidationResult.details v = Some details_verified
        /\ ValidationResult.error v = None
        /\ exists m, ValidationResult.metadata v = Some m
                     /\ Metadata.timestamp m = Some (toISOString amb))
    /\ (ValidationResult.isValid v = false ->
        (exists e, ValidationResult.error v = Some e)
        /\ ValidationResult.metadata v = None).
Proof.
  assert (Hfail : forall e d,
            (ValidationResult.isValid (failure e d) = true ->
             ValidationResult.details (failure e d) = Some details_verified
             /\ ValidationResult.error (failure e d) = None
             /\ exists m, ValidationResult.metadata (failure e d) = Some m
                          /\ Metadata.timestamp m = Some (toISOString amb))
            /\ (ValidationResult.isValid (failure e d) = false ->
                (exists e', ValidationResult.error (failure e d) = Some e')
                /\ ValidationResult.metadata (failure e d) = None)).
  { intros e d. split; [discriminate|]. intros _. cbn. eauto. }
  assert (Hdone : forall e d (w' : World),
            exists v w'',
              (Ret (failure e d), w') = (Ret v, w'')
              /\ (ValidationResult.isValid v = true ->
                  ValidationResult.details v = Some details_verified
                  /\ ValidationResult.error v = None
                  /\ exists m, ValidationResult.metadata v = Some m
                               /\ Metadata.timestamp m = Some (toISOString amb))
              /\ (ValidationResult.isValid v = false ->
                  (exists e', ValidationResult.error v = Some e')
                  /\ ValidationResult.metadata v = None)).
  { intros e d w'. do 2 eexists. split; [reflexivity|]. apply Hfail. }
  rewrite validate_unfold.
  destruct (extractSignatureComponents request) as [sc|]; [|apply Hdone].
  destruct (fetchSignaturesDirectory _ _ _ _) as [[dr|e] w1]; [|apply Hdone].
  destruct (usable_directory dr) as [directory|]; [|apply Hdone].
  destruct (findKeyById _ _) as [[key|]|e]; [|apply Hdone|apply Hdone].
  destruct (verifySignatureWithWebBotAuth _ _ _ _ _) as [[[|]|e] w2];
    [|apply Hdone|apply Hdone].
  destruct (purpose_differs config directory); [destruct (template _); apply Hdone|].
  do 2 eexists. split; [reflexivity|]. split; [|discriminate].
  intros _. cbn. eauto.
Qed.

Lemma resolver_effects amb url cacheTimeout w o w' :
  fetchSignaturesDirectory amb url cacheTimeout w = (o, w') ->
  (fetchCalls w' = fetchCalls w \/ fetchCalls w' = (fetchCalls w ++ [url])%list)
  /\ console w' = console w.
Proof.
  destruct (resolver_cases amb url cacheTimeout w)
    as [(c & _ & _ & E)|[(data & _ & _ & E)|(m & _ & _ & E)]];
    rewrite E; intros [= _ <-]; cbn; auto.
Qed.

Lemma verify_effects amb request key directory w b w' :
  verifySignatureWithWebBotAuth amb request key directory w = (Ret b, w') ->
  fetchCalls w' = fetchCalls w
  /\ (if b then console w' = console w
      else exists line, console w' = (console w ++ [line])%list).
Proof.
  rewrite verify_unfold.
  destruct (env_is_test amb).
  - intros [= <- <-]. cbn. eauto.
  - destruct (lib_verifierFromJWK amb key) as [verifier|e].
    + destruct (lib_verify amb request verifier) as [[]|e]; intros [= <- <-]; cbn; eauto.
    + intros [= <- <-]. cbn. eauto.
Qed.

(** X15. One call of [validateWebBotAuth] makes at most one fetch, of the
    configured directory URL and nothing else (no retry), and writes to the
    console only when step 4 fails, in which case the result is
    SignatureInvalid. *)
Theorem X15_at_most_one_fetch amb request config w :
  exists v w',
    validateWebBotAuth amb request config w = (Ret v, w')
    /\ (fetchCalls w' = fetchCalls w
        \/ fetchCalls w' = (fetchCalls w ++ [ValidationConfig.directoryUrl config])%list)
    /\ (console w' = console w
        \/ (SignatureInvalid v /\ exists line, console w' = (console w ++ [line])%list)).
Proof.
  rewrite validate_unfold.
  destruct (extractSignatureComponents request) as [sc|].
  2:{ do 2 eexists. split; [reflexivity|]. split; now left. }
  destruct (fetchSignaturesDirectory _ _ _ _) as [o1 w1] eqn:Hr.
  destruct (resolver_effects _ _ _ _ _ _ Hr) as (Hcalls & Hcons).
  assert (Hstop : forall x : ValidationResult.t,
            exists v w',
              (Ret x, w1) = (Ret v, w')
              /\ (fetchCalls w' = fetchCalls w
                  \/ fetchCalls w'
                     = (fetchCalls w ++ [ValidationConfig.directoryUrl config])%list)
              /\ (console w' = console w
                  \/ (SignatureInvalid v
                      /\ exists line, console w' = (console w ++ [line])%list))).
  { intros x. do 2 eexists. split; [reflexivity|]. split; [exact Hcalls|now left]. }
  destruct o1 as [dr|e]; [|apply Hstop].
  destruct (usable_directory dr) as [directory|]; [|apply Hstop].
  destruct (findKeyById _ _) as [[key|]|e]; [|apply Hstop|apply Hstop].
  destruct (verify_returns amb request key directory w1) as (b & w2 & Hv & _).
  rewrite Hv. destruct (verify_effects _ _ _ _ _ _ _ Hv) as (Hcalls2 & Hcons2).
  assert (Hcalls' : fetchCalls w2 = fetchCalls w
                    \/ fetchCalls w2
                       = (fetchCalls w ++ [ValidationConfig.directoryUrl config])%list)
    by now rewrite Hcalls2.
  destruct b.
  - assert (Hcons' : console w2 = console w) by congruence.
    destruct (purpose_differs config directory); [destruct (template _)|];
      do 2 eexists; (split; [reflexivity|]); (split; [exact Hcalls'|now left]).
  - destruct Hcons2 as (line & Hline).
    do 2 eexists. split; [reflexivity|]. split; [exact Hcalls'|].
    right. split; [split; reflexivity|]. exists line. congruence.
Qed.

Lemma header_truthy_false h : header_truthy h = false <-> absent_or_empty h.
Proof.
  unfold header_truthy, absent_or_empty. destruct h as [v|]; [|tauto].
  destruct (String.eqb v EmptyString) eqn:E; cbn.
  - apply String.eqb_eq in E. subst. tauto.
  - split; [discriminate|]. intros [H|[= ->]]; discriminate.
Qed.

(** X16. The verifier answers MissingSignature exactly when the [signature]
    header or the [signature-input] header is absent or has the empty value:
    a header that is present but empty counts as missing, and no other failure
    is reported under that kind. *)
Theorem X16_missing_signature_iff amb request config w :
  exists v w',
    validateWebBotAuth amb request config w = (Ret v, w')
    /\ (MissingSignature v <->
        absent_or_empty (Request.headers request !! "signature")
        \/ absent_or_empty (Request.headers request !! "signature-input")).
Proof.
  assert (Hequiv : absent_or_empty (Request.headers request !! "signature")
                   \/ absent_or_empty (Request.headers request !! "signature-input")
                   <-> extractSignatureComponents request = None).
  { rewrite extract_none_iff, <- !header_truthy_false. reflexivity. }
  setoid_rewrite Hequiv. clear Hequiv. rewrite validate_unfold.
  assert (Hother : forall e d (w' : World),
            (forall H : "No HTTP Message Signature headers found" = e, False) ->
            forall sc, exists v w'',
              (Ret (failure e d), w') = (Ret v, w'')
              /\ (MissingSignature v <-> Some sc = None :> option SignatureComponents.t)).
  { intros e d w' Hne sc. do 2 eexists. split; [reflexivity|].
    split; [|discriminate]. intros (_ & H). cbn in H. injection H as H.
    exfalso. apply Hne. now symmetry. }
  destruct (extractSignatureComponents request) as [sc|].
  2:{ do 2 eexists. split; [reflexivity|]. split; [reflexivity|]. now split. }
  destruct (fetchSignaturesDirectory _ _ _ _) as [[dr|e] w1];
    [|apply Hother; cbn; discriminate].
  destruct (usable_directory dr) as [directory|]; [|apply Hother; cbn; discriminate].
  destruct (findKeyById _ _) as [[key|]|e]; try (apply Hother; cbn; discriminate).
  destruct (verifySignatureWithWebBotAuth _ _ _ _ _) as [[[|]|e] w2];
    try (apply Hother; cbn; discriminate).
  destruct (purpose_differs config directory);
    [destruct (template _); apply Hother; cbn; discriminate|].
  do 2 eexists. split; [reflexivity|]. split; [|discriminate].
  intros (H & _). discriminate H.
Qed.

Lemma X16_missing_signature_iff_witness :
  exists w',
    validateWebBotAuth (serving testDirectory 0) emptySignatureRequest testConfig empty_world
    = (Ret (failure "No HTTP Message Signature headers found" initial_details), w').
Proof.
  destruct (X16_missing_signature_iff (serving testDirectory 0) emptySignatureRequest
              testConfig empty_world) as (v & w' & Hv & Hiff).
  assert (Hmissing : MissingSignature v).
  { apply Hiff. left. right. reflexivity. }
  exists w'. rewrite Hv. f_equal. f_equal.
  pose proof Hv as Hrun. vm_compute in Hrun. now injection Hrun as <- _.
Defined.

(** X17. Step 5 is skipped when no purpose is configured: once a key is
    matched and the signature verifies, a configuration whose expected purpose
    is absent or the empty string accepts the request whatever purpose the
    directory declares, and one whose expected purpose is the string the
    directory declares accepts it too; the metadata carry the parsed key
    identifier and the directory's purpose. *)
Theorem X17_purpose_accepted amb request config w sc dr w1 directory key w2 :
  extractSignatureComponents request = Some sc ->
  fetchSignaturesDirectory amb (ValidationConfig.directoryUrl config)
    (ValidationConfig.cacheTimeout config) w = (Ret dr, w1) ->
  usable_directory dr = Some directory ->
  findKeyById directory (default EmptyString (SignatureComponents.keyId sc))
  = Ret (Some key) ->
  verifySignatureWithWebBotAuth amb request key directory w1 = (Ret true, w2) ->
  absent_or_empty (ValidationConfig.purpose config)
  \/ (exists p, ValidationConfig.purpose config = Some p
                /\ prop directory "purpose" = Some (JString p)) ->
  validateWebBotAuth amb request config w
  = (Ret (ValidationResult.mk true None (Some details_verified)
            (Some (Metadata.mk (SignatureComponents.keyId sc) (prop directory "purpose")
                     (Some (toISOString amb))))),
     w2).
Proof.
  intros Hsc Hr Hu Hk Hv Hp.
  rewrite validate_unfold, Hsc, Hr, Hu, Hk, Hv.
  assert (Hno : purpose_differs config directory = false).
  { unfold purpose_differs. destruct Hp as [Hp|(p & Hp & Hd)].
    - apply header_truthy_false in Hp. unfold purpose_truthy. now rewrite Hp.
    - rewrite Hp. change (default EmptyString (Some p)) with p.
      apply strict_eq_string_true in Hd. rewrite Hd. apply andb_false_r. }
  now rewrite Hno.
Qed.

Lemma X17_purpose_accepted_witness :
  validateWebBotAuth (serving mockDirectory 0) (signedRequest "test-key-2") anyPurposeConfig
    empty_world
  = (Ret (ValidationResult.mk true None (Some details_verified)
            (Some (Metadata.mk (Some "test-key-2") (Some (JString "rag"))
                     (Some "2025-04-01T00:00:00.000Z")))),
     world_after_fetch example_url mockDirectory 0).
Proof.
  assert (Hr : fetchSignaturesDirectory (serving mockDirectory 0)
                 (ValidationConfig.directoryUrl anyPurposeConfig)
                 (ValidationConfig.cacheTimeout anyPurposeConfig) empty_world
               = (Ret (DirectoryResult.mk true (Some mockDirectory) None example_url 0),
                  world_after_fetch example_url mockDirectory 0)).
  { vm_compute. reflexivity. }
  rewrite (X17_purpose_accepted (serving mockDirectory 0) (signedRequest "test-key-2")
             anyPurposeConfig empty_world _ _ _ mockDirectory mockKey2
             (world_after_fetch example_url mockDirectory 0)
             eq_refl Hr eq_refl eq_refl eq_refl (or_introl (or_introl eq_refl))).
  reflexivity.
Defined.

(** ** Header parsing *)

Lemma app_cons c s t : String c s +:+ t = String c (s +:+ t).
Proof. reflexivity. Qed.

Lemma app_nil_l t : EmptyString +:+ t = t.
Proof. reflexivity. Qed.

Lemma app_assoc' s t u : (s +:+ t) +:+ u = s +:+ t +:+ u.
Proof.
  induction s as [|c s IH]; [reflexivity|].
  rewrite !app_cons. now rewrite IH.
Qed.

Lemma strip_prefix_app p r : strip_prefix p (p +:+ r) = Some r.
Proof.
  induction p as [|c p IH]; [now destruct r|].
  rewrite app_cons. cbn [strip_prefix]. now rewrite Ascii.eqb_refl.
Qed.

Lemma strip_prefix_sound p : forall s r, strip_prefix p s = Some r -> s = p +:+ r.
Proof.
  induction p as [|c p IH]; intros s r.
  - destruct s; intros [= <-]; reflexivity.
  - destruct s as [|b s]; [discriminate|]. cbn [strip_prefix].
    destruct (Ascii.eqb c b) eqn:E; [|discriminate].
    apply Ascii.eqb_eq in E. subst b. intros H. rewrite app_cons. f_equal. now apply IH.
Qed.

Lemma span_sound f : forall s run rest,
  span f s = (run, rest) ->
  s = run +:+ rest /\ string_forall f run = true /\ head_fails f rest.
Proof.
  induction s as [|c s IH]; intros run rest; cbn [span].
  - intros [= <- <-]. repeat split.
  - destruct (f c) eqn:E.
    + destruct (span f s) as [run' rest']. intros [= <- <-].
      destruct (IH run' rest' eq_refl) as (-> & Hall & Hhead).
      rewrite app_cons. cbn [string_forall]. rewrite E. auto.
    + intros [= <- <-]. repeat split. exact E.
Qed.

Lemma span_complete f rest : forall run,
  string_forall f run = true -> head_fails f rest ->
  span f (run +:+ rest) = (run, rest).
Proof.
  induction run as [|c run IH]; intros Hall Hhead.
  - rewrite app_nil_l. destruct rest as [|c rest]; [reflexivity|].
    cbn [span]. cbn in Hhead. now rewrite Hhead.
  - rewrite app_cons. cbn [span]. cbn [string_forall] in Hall.
    apply andb_true_iff in Hall as (Hc & Hall). rewrite Hc, (IH Hall Hhead). reflexivity.
Qed.

Lemma search_here at_pos s v : at_pos s = Some v -> search at_pos s = Some v.
Proof. intros H. destruct s; cbn [search]; now rewrite H. Qed.

Lemma search_sound at_pos : forall s v,
  search at_pos s = Some v -> exists pre t, s = pre +:+ t /\ at_pos t = Some v.
Proof.
  induction s as [|c s IH]; intros v; cbn [search].
  - destruct (at_pos EmptyString) eqn:E; [|discriminate].
    intros [= <-]. exists EmptyString, EmptyString. auto.
  - destruct (at_pos (String c s)) eqn:E.
    + intros [= <-]. exists EmptyString, (String c s). auto.
    + intros H. destruct (IH v H) as (pre & t & -> & Ht).
      exists (String c pre), t. auto.
Qed.

Lemma search_complete at_pos t v : forall pre,
  at_pos t = Some v -> exists v', search at_pos (pre +:+ t) = Some v'.
Proof.
  induction pre as [|c pre IH]; intros Ht.
  - rewrite app_nil_l. exists v. now apply search_here.
  - rewrite app_cons. cbn [search].
    destruct (at_pos (String c (pre +:+ t))); eauto.
Qed.

Lemma is_quote_dq c : is_quote c = true -> String c EmptyString = dq.
Proof. unfold is_quote. intros H. apply Ascii.eqb_eq in H. now subst. Qed.

Lemma quoted_here_iff name s v :
  quoted_here name s = Some v
  <-> v <> EmptyString /\ quote_free v = true
      /\ exists post, s = quoted_parameter name v +:+ post.
Proof.
  unfold quoted_here, quoted_parameter. split.
  - destruct (strip_prefix (name +:+ "=" +:+ dq) s) as [after|] eqn:Hp; [|discriminate].
    apply strip_prefix_sound in Hp. subst s.
    destruct (span (fun c => negb (is_quote c)) after) as [run rest] eqn:Hs.
    destruct run as [|c run]; [discriminate|].
    destruct rest as [|q rest]; [discriminate|]. intros [= <-].
    destruct (span_sound _ _ _ _ Hs) as (-> & Hall & Hhead).
    cbn in Hhead. apply negb_false_iff in Hhead.
    split; [discriminate|]. split; [exact Hall|]. exists rest.
    change (String q rest) with (String q EmptyString +:+ rest).
    rewrite (is_quote_dq _ Hhead), !app_assoc'. reflexivity.
  - intros (Hne & Hfree & post & ->).
    replace ((name +:+ "=" +:+ dq +:+ v +:+ dq) +:+ post)
      with ((name +:+ "=" +:+ dq) +:+ v +:+ dq +:+ post)
      by (rewrite !app_assoc'; reflexivity).
    rewrite strip_prefix_app, (span_complete _ (dq +:+ post) v Hfree) by reflexivity.
    destruct v; [contradiction|reflexivity].
Qed.

(** X18. Parsing a header gives back what was put in: for a request whose
    [signature] header is non-empty and whose [signature-input] starts with
    [keyid="k"], with [k] non-empty and free of double quotes, the extracted
    components carry both raw header values and the key identifier [k]. *)
Theorem X18_keyid_round_trip request sig kid post :
  Request.headers request !! "signature" = Some sig ->
  sig <> EmptyString ->
  Request.headers request !! "signature-input"
  = Some (quoted_parameter "keyid" kid +:+ post) ->
  kid <> EmptyString ->
  quote_free kid = true ->
  exists sc,
    extractSignatureComponents request = Some sc
    /\ SignatureComponents.signature sc = sig
    /\ SignatureComponents.signatureInput sc = quoted_parameter "keyid" kid +:+ post
    /\ SignatureComponents.keyId sc = Some kid.
Proof.
  intros Hs Hsne Hi Hkne Hfree. unfold extractSignatureComponents. rewrite Hs, Hi.
  assert (E1 : header_truthy (Some sig) = true).
  { cbn. destruct (String.eqb sig EmptyString) eqn:E; [|reflexivity].
    apply String.eqb_eq in E. contradiction. }
  assert (E2 : header_truthy (Some (quoted_parameter "keyid" kid +:+ post)) = true)
    by reflexivity.
  rewrite E1, E2. cbn [negb orb]. eexists. split; [reflexivity|].
  cbn [SignatureComponents.signature SignatureComponents.signatureInput
         SignatureComponents.keyId].
  repeat split. apply search_here. apply quoted_here_iff. eauto.
Qed.

Lemma X18_keyid_round_trip_witness :
  exists sc,
    extractSignatureComponents (signedRequest "test-key") = Some sc
    /\ SignatureComponents.signature sc = "test-signature-value"
    /\ SignatureComponents.keyId sc = Some "test-key".
Proof.
  destruct (X18_keyid_round_trip (signedRequest "test-key") "test-signature-value" "test-key"
              (",alg=" +:+ dq +:+ "ed25519" +:+ dq
               +:+ ",created=1234567890,expires=1234567899,tag=" +:+ dq
               +:+ "web-bot-auth" +:+ dq))
    as (sc & Hsc & Hsig & _ & Hkid).
  - reflexivity.
  - discriminate.
  - reflexivity.
  - discriminate.
  - reflexivity.
  - exists sc. auto.
Defined.

(** X19. The quoted patterns ([keyid], [alg], [nonce], [tag]) find a value
    exactly when the header contains [name="value"] for some non-empty,
    quote-free value, and the value they return is such a value occurring in
    the header; in particular an absent parameter gives an unset field, never
    a failure. *)
Theorem X19_quoted_parameter_found_iff name input :
  ((exists value, match_quoted name input = Some value) <-> mentions_quoted name input)
  /\ (forall value,
        match_quoted name input = Some value ->
        value <> EmptyString /\ quote_free value = true
        /\ exists pre post, input = pre +:+ quoted_parameter name value +:+ post)
  /\ (match_quoted name input = None <-> ~ mentions_quoted name input).
Proof.
  assert (Hsound : forall value,
            match_quoted name input = Some value ->
            value <> EmptyString /\ quote_free value = true
            /\ exists pre post, input = pre +:+ quoted_parameter name value +:+ post).
  { intros value H. apply search_sound in H as (pre & t & -> & Ht).
    apply quoted_here_iff in Ht as (Hne & Hfree & post & ->). eauto 6. }
  assert (Hiff : (exists value, match_quoted name input = Some value)
                 <-> mentions_quoted name input).
  { split.
    - intros (value & H). destruct (Hsound value H) as (Hne & Hfree & pre & post & ->).
      exists pre, value, post. auto.
    - intros (pre & value & post & Hne & Hfree & ->).
      apply (search_complete _ _ value). apply quoted_here_iff. eauto. }
  split; [exact Hiff|]. split; [exact Hsound|].
  split.
  - intros Hnone Hm. apply Hiff in Hm as (v & Hv). congruence.
  - intros Hno. destruct (match_quoted name input) as [v|] eqn:E; [|reflexivity].
    exfalso. apply Hno, Hiff. eauto.
Qed.

Lemma X19_quoted_parameter_found_iff_witness :
  match_quoted "nonce" ("keyid=" +:+ dq +:+ "k" +:+ dq +:+ ",created=12") = None
  /\ quote_free "test-key" = true.
Proof.
  destruct (X19_quoted_parameter_found_iff "keyid"
              ("keyid=" +:+ dq +:+ "test-key" +:+ dq +:+ ",alg=" +:+ dq +:+ "ed25519" +:+ dq))
    as (_ & Hsound & _).
  destruct (Hsound "test-key" eq_refl) as (_ & Hfree & _).
  split; [reflexivity|exact Hfree].
Defined.

Lemma digits_here_iff name s v :
  digits_here name s = Some v
  <-> v <> EmptyString /\ all_digits v = true
      /\ exists post, s = name +:+ "=" +:+ v +:+ post /\ head_fails is_digit post.
Proof.
  unfold digits_here. split.
  - destruct (strip_prefix (name +:+ "=") s) as [after|] eqn:Hp; [|discriminate].
    apply strip_prefix_sound in Hp. subst s.
    destruct (span is_digit after) as [run rest] eqn:Hs.
    destruct run as [|c run]; [discriminate|]. intros [= <-].
    destruct (span_sound _ _ _ _ Hs) as (-> & Hall & Hhead).
    split; [discriminate|]. split; [exact Hall|]. exists rest.
    split; [now rewrite app_assoc'|exact Hhead].
  - intros (Hne & Hall & post & -> & Hhead).
    rewrite <- app_assoc', strip_prefix_app, (span_complete _ post v Hall Hhead).
    destruct v; [contradiction|reflexivity].
Qed.

(** X20. The numeric patterns ([created], [expires]) return a non-empty run
    of digits that occurs in the header right after [name=] and is maximal
    (what follows it is not a digit); the value is kept as text.  They return
    nothing exactly when the header nowhere has [name=] followed by a
    digit. *)
Theorem X20_numeric_parameter_parsed name input :
  (forall value,
      match_digits name input = Some value ->
      value <> EmptyString /\ all_digits value = true
      /\ exists pre post,
           input = pre +:+ name +:+ "=" +:+ value +:+ post /\ head_fails is_digit post)
  /\ (match_digits name input = None <-> ~ mentions_digits name input).
Proof.
  assert (Hsound : forall value,
            match_digits name input = Some value ->
            value <> EmptyString /\ all_digits value = true
            /\ exists pre post,
                 input = pre +:+ name +:+ "=" +:+ value +:+ post
                 /\ head_fails is_digit post).
  { intros value H. apply search_sound in H as (pre & t & -> & Ht).
    apply digits_here_iff in Ht as (Hne & Hall & post & -> & Hhead). eauto 7. }
  split; [exact Hsound|]. split.
  - intros Hnone (pre & d & post & Hd & ->).
    destruct (span is_digit post) as [run rest] eqn:Hs.
    destruct (span_sound _ _ _ _ Hs) as (-> & Hall & Hhead).
    destruct (search_complete (digits_here name)
                (name +:+ "=" +:+ String d run +:+ rest) (String d run) pre)
      as (v' & Hv').
    + apply digits_here_iff. split; [discriminate|].
      split; [cbn; unfold all_digits in *; cbn; now rewrite Hd|].
      exists rest. auto.
    + unfold match_digits in Hnone.
      change (String d run +:+ rest) with (String d (run +:+ rest)) in Hv'. congruence.
  - intros Hno. destruct (match_digits name input) as [v|] eqn:E; [|reflexivity].
    exfalso. apply Hno.
    destruct (Hsound v eq_refl) as (Hne & Hall & pre & post & -> & _).
    destruct v as [|d v]; [contradiction|].
    exists pre, d, (v +:+ post). split; [|reflexivity].
    cbn in Hall. unfold all_digits in Hall. cbn in Hall.
    now apply andb_true_iff in Hall as (Hd & _).
Qed.

Lemma X20_numeric_parameter_parsed_witness :
  all_digits "1234567890" = true
  /\ match_digits "created" "created=soon,expires=" = None.
Proof.
  destruct (X20_numeric_parameter_parsed "created"
              ("keyid=" +:+ dq +:+ "k" +:+ dq +:+ ",created=1234567890,expires=1234567899"))
    as (Hsound & _).
  destruct (Hsound "1234567890" eq_refl) as (_ & Hall & _).
  split; [exact Hall|reflexivity].
Defined.

(** ** The verifier and the cache *)

(** What a call of the verifier does once its resolver call has returned. *)
Lemma validate_after_resolver amb request config w sc dr wA :
  extractSignatureComponents request = Some sc ->
  fetchSignaturesDirectory amb (ValidationConfig.directoryUrl config)
    (ValidationConfig.cacheTimeout config) w = (Ret dr, wA) ->
  exists v w',
    validateWebBotAuth amb request config w = (Ret v, w')
    /\ directoryCache w' = directoryCache wA
    /\ fetchCalls w' = fetchCalls wA
    /\ (usable_directory dr = None ->
        w' = wA
        /\ v = failure ("Failed to fetch signatures directory: "
                        +:+ template_string (DirectoryResult.error dr)) details_found)
    /\ (usable_directory dr <> None -> ~ DirectoryUnavailable v).
Proof.
  intros Hsc Hr. rewrite validate_unfold, Hsc, Hr.
  assert (Hnot : forall e d,
            (forall cause, e <> "Failed to fetch signatures directory: " +:+ cause) ->
            ~ DirectoryUnavailable (failure e d)).
  { intros e d Hne (_ & cause & H). cbn in H. injection H as H. exact (Hne cause H). }
  destruct (usable_directory dr) as [directory|].
  2:{ do 2 eexists. split; [reflexivity|]. repeat split; congruence. }
  destruct (findKeyById _ _) as [[key|]|e].
  - destruct (verify_returns amb request key directory wA) as (b & w2 & Hv & Hc & Hf).
    rewrite Hv.
    destruct b;
      [destruct (purpose_differs config directory);
       [destruct (template (prop directory "purpose"))|]|];
      do 2 eexists; (split; [reflexivity|]); (split; [exact Hc|]); (split; [exact Hf|]);
      (split; [congruence|]); intros _.
    + apply Hnot. intros cause H. cbn in H. discriminate H.
    + apply Hnot. intros cause H. cbn in H. discriminate H.
    + intros (H & _). discriminate H.
    + apply Hnot. intros cause H. cbn in H. discriminate H.
  - do 2 eexists. split; [reflexivity|]. repeat split; try congruence.
    intros _. apply Hnot. intros cause H. cbn in H. discriminate H.
  - do 2 eexists. split; [reflexivity|]. repeat split; try congruence.
    intros _. apply Hnot. intros cause H. cbn in H. discriminate H.
Qed.

(** X21. The verifier warms the cache for later calls: after a verification
    that had to fetch the directory, a second verification under the same
    configuration within the freshness window makes no fetch of its own (one
    fetch serves both) and cannot fail with DirectoryUnavailable, whatever the
    network does by then. *)
Theorem X21_second_verification_uses_cache
  amb1 amb2 request1 request2 config w sc1 sc2 data :
  extractSignatureComponents request1 = Some sc1 ->
  extractSignatureComponents request2 = Some sc2 ->
  miss amb1 (ValidationConfig.directoryUrl config) (ValidationConfig.cacheTimeout config) w ->
  delivered amb1 (ValidationConfig.directoryUrl config) = Some data ->
  Date_now amb2 - Date_now amb1 < freshnessWindow (ValidationConfig.cacheTimeout config) ->
  exists v1 w1 v2 w2,
    validateWebBotAuth amb1 request1 config w = (Ret v1, w1)
    /\ validateWebBotAuth amb2 request2 config w1 = (Ret v2, w2)
    /\ fetchCalls w2 = (fetchCalls w ++ [ValidationConfig.directoryUrl config])%list
    /\ ~ DirectoryUnavailable v2.
Proof.
  intros Hsc1 Hsc2 Hm Hd Hlt.
  pose proof (resolver_miss_delivered _ _ _ _ _ Hm Hd) as Hr1.
  destruct (validate_after_resolver _ _ _ _ _ _ _ Hsc1 Hr1)
    as (v1 & w1 & Hv1 & Hc1 & Hf1 & _).
  assert (Hentry : directoryCache w1 !! ValidationConfig.directoryUrl config
                   = Some (CacheEntry.mk data (Date_now amb1))).
  { rewrite Hc1. cbn. apply lookup_insert_eq. }
  pose proof (resolver_hit amb2 _ (ValidationConfig.cacheTimeout config) w1 _ Hentry Hlt)
    as Hr2.
  destruct (validate_after_resolver _ _ _ _ _ _ _ Hsc2 Hr2)
    as (v2 & w2 & Hv2 & _ & Hf2 & _ & Husable).
  exists v1, w1, v2, w2. split; [exact Hv1|]. split; [exact Hv2|].
  split; [now rewrite Hf2, Hf1|].
  apply Husable. unfold usable_directory. cbn.
  apply delivered_valid in Hd as (_ & _ & _ & _ & Hvalid).
  apply validateDirectoryStructure_valid_iff in Hvalid as (fields & keys & -> & _).
  discriminate.
Qed.

Lemma X21_second_verification_uses_cache_witness :
  exists v1 w1 v2 w2,
    validateWebBotAuth (serving mockDirectory 0) (signedRequest "test-key-1") ragConfig
      empty_world = (Ret v1, w1)
    /\ validateWebBotAuth (not_found 1000) (signedRequest "test-key-2") ragConfig w1
       = (Ret v2, w2)
    /\ fetchCalls w2 = [example_url]
    /\ ~ DirectoryUnavailable v2.
Proof.
  eapply (X21_second_verification_uses_cache (serving mockDirectory 0) (not_found 1000)
            (signedRequest "test-key-1") (signedRequest "test-key-2") ragConfig empty_world).
  - reflexivity.
  - reflexivity.
  - intros c Hc. discriminate Hc.
  - reflexivity.
  - reflexivity.
Defined.

(** X22. The verifier fails closed on a stale cache: when the cached
    directory is past its window and the refetch fails, the request fails with
    DirectoryUnavailable carrying the resolver's message, with
    [directoryFetched = false], although a directory for the URL is still in
    the cache; no key is looked up and the stale entry stays where it is. *)
Theorem X22_stale_cache_fails_closed amb request config w sc c :
  extractSignatureComponents request = Some sc ->
  directoryCache w !! ValidationConfig.directoryUrl config = Some c ->
  ~ fresh amb (ValidationConfig.cacheTimeout config) c ->
  delivered amb (ValidationConfig.directoryUrl config) = None ->
  exists message w',
    validateWebBotAuth amb request config w
    = (Ret (failure ("Failed to fetch signatures directory: " +:+ message) details_found),
       w')
    /\ directoryCache w' = directoryCache w
    /\ fetchCalls w' = (fetchCalls w ++ [ValidationConfig.directoryUrl config])%list.
Proof.
  intros Hsc Hc Hstale Hd.
  assert (Hm : miss amb (ValidationConfig.directoryUrl config)
                 (ValidationConfig.cacheTimeout config) w).
  { intros c' Hc'. assert (c' = c) by congruence. now subst. }
  destruct (resolver_miss_failed _ _ _ _ Hm Hd) as (message & Hr).
  destruct (validate_after_resolver _ _ _ _ _ _ _ Hsc Hr)
    as (v & w' & Hv & _ & _ & Hfail & _).
  destruct (Hfail eq_refl) as (-> & ->).
  exists message, (log_fetch (ValidationConfig.directoryUrl config) w).
  split; [exact Hv|]. split; reflexivity.
Qed.

Lemma X22_stale_cache_fails_closed_witness :
  exists message w',
    validateWebBotAuth (not_found 3600000) (signedRequest "test-key-1") ragConfig
      (world_after_fetch example_url mockDirectory 0)
    = (Ret (failure ("Failed to fetch signatures directory: " +:+ message) details_found),
       w')
    /\ directoryCache w' = directoryCache (world_after_fetch example_url mockDirectory 0)
    /\ fetchCalls w' = [example_url; example_url].
Proof.
  eapply (X22_stale_cache_fails_closed (not_found 3600000) (signedRequest "test-key-1")
            ragConfig (world_after_fetch example_url mockDirectory 0)).
  - reflexivity.
  - reflexivity.
  - unfold fresh. vm_compute. discriminate.
  - reflexivity.
Defined.

(** ** The example handlers *)

(** X23. The worker answers its health-check paths without validating
    anything: when the path of the request URL is exactly "/health" or
    "/debug" the response is 200 "OK" and the world is untouched (no fetch, no
    cache write), signed or not; and a request URL that does not parse makes
    the handler throw before any validation. *)
Theorem X23_health_paths_bypass_validation plat amb request w :
  (forall pathname,
      URL_pathname plat (Request.url request) = Ret pathname ->
      pathname = "/health" \/ pathname = "/debug" ->
      Examples.handleWorkerRequest plat amb request w
      = (Ret (WorkerResponse.mk "OK" 200 []), w))
  /\ (forall e,
        URL_pathname plat (Request.url request) = Throw e ->
        Examples.handleWorkerRequest plat amb request w = (Throw e, w)).
Proof.
  unfold Examples.handleWorkerRequest, bind, lift, ret. split.
  - intros pathname Hp [-> | ->]; now rewrite Hp.
  - intros e Hp. now rewrite Hp.
Qed.

Lemma X23_health_paths_bypass_validation_witness :
  Examples.handleWorkerRequest (pathOf "/health") (not_found 0) unsignedRequest empty_world
  = (Ret (WorkerResponse.mk "OK" 200 []), empty_world).
Proof.
  destruct (X23_health_paths_bypass_validation (pathOf "/health") (not_found 0)
              unsignedRequest empty_world) as (H & _).
  apply (H "/health"); [reflexivity|now left].
Defined.



(** X25. The example middleware lets a request through only when it
    verifies: on a failed verification it answers 401, attaches nothing to the
    request and does not call [next]; on a success it attaches the verdict and
    metadata and calls [next] once; and it answers 500, with a console line,
    only when [next] itself throws. *)
Theorem X25_middleware_gates_next config amb request next w :
  exists v w1,
    validateWebBotAuth amb request config w = (Ret v, w1)
    /\ (ValidationResult.isValid v = false ->
        Examples.createValidationMiddleware config amb request next (None, w)
        = (Ret (Some (WorkerResponse.mk "Unauthorized: Invalid signature" 401 [])),
           (None, w1)))
    /\ (ValidationResult.isValid v = true ->
        let tag := Some (WebBotAuthTag.mk true (ValidationResult.metadata v)) in
        (forall wn,
            next w1 = (Ret tt, wn) ->
            Examples.createValidationMiddleware config amb request next (None, w)
            = (Ret None, (tag, wn)))
        /\ (forall e wn,
              next w1 = (Throw e, wn) ->
              Examples.createValidationMiddleware config amb request next (None, w)
              = (Ret (Some (WorkerResponse.mk "Internal Server Error" 500 [])),
                 (tag, log_console ("Validation middleware error: " +:+ e) wn)))).
Proof.
  destruct (validate_returns amb request config w) as (v & w1 & Hv).
  exists v, w1. split; [exact Hv|].
  unfold Examples.createValidationMiddleware, try_catch, bind, Examples.on_world,
    Examples.set_webBotAuth, modify, ret.
  rewrite Hv. split.
  - intros Hvalid. now rewrite Hvalid.
  - intros Hvalid. rewrite Hvalid. cbv zeta. split.
    + intros wn Hn. now rewrite Hn.
    + intros e wn Hn. now rewrite Hn.
Qed.

Lemma X25_middleware_gates_next_witness :
  Examples.createValidationMiddleware testConfig (serving testDirectory 0) unsignedRequest
    (throw "downstream") (None, empty_world)
  = (Ret (Some (WorkerResponse.mk "Unauthorized: Invalid signature" 401 [])),
     (None, empty_world)).
Proof.
  destruct (X25_middleware_gates_next testConfig (serving testDirectory 0) unsignedRequest
              (throw "downstream") empty_world) as (v & w1 & Hv & Hinvalid & _).
  vm_compute in Hv. injection Hv as <- <-.
  apply Hinvalid. reflexivity.
Defined.

(** ** Instances of the shape theorems *)

Lemma X8_directory_result_well_formed_witness :
  exists r w' e,
    fetchSignaturesDirectory (not_found 0) example_url None empty_world = (Ret r, w')
    /\ DirectoryResult.url r = example_url
    /\ DirectoryResult.error r = Some e.
Proof.
  destruct (X8_directory_result_well_formed (not_found 0) example_url None empty_world)
    as (r & w' & Hr & Hurl & _ & Hfail & _).
  assert (Hs : DirectoryResult.success r = false).
  { pose proof Hr as Hrun. vm_compute in Hrun. now injection Hrun as <- _. }
  destruct (proj1 Hfail Hs) as (e & He).
  exists r, w', e. auto.
Defined.

Lemma X14_validation_result_well_formed_witness :
  exists v w',
    validateWebBotAuth (serving mockDirectory 0) (signedRequest "test-key-1") ragConfig
      empty_world = (Ret v, w')
    /\ ValidationResult.details v = Some details_verified
    /\ ValidationResult.error v = None.
Proof.
  destruct (X14_validation_result_well_formed (serving mockDirectory 0)
              (signedRequest "test-key-1") ragConfig empty_world)
    as (v & w' & Hv & Hvalid & _).
  assert (Hs : ValidationResult.isValid v = true).
  { pose proof Hv as Hrun. vm_compute in Hrun. now injection Hrun as <- _. }
  destruct (Hvalid Hs) as (Hd & He & _).
  exists v, w'. auto.
Defined.

Lemma X15_at_most_one_fetch_witness :
  exists v w',
    validateWebBotAuth (with_NODE_ENV (Some "test") (serving mockDirectory 0))
      (signedRequest "test-key-1") ragConfig empty_world = (Ret v, w')
    /\ (fetchCalls w' = [] \/ fetchCalls w' = [example_url])
    /\ (console w' = []
        \/ (SignatureInvalid v /\ exists line, console w' = [line])).
Proof.
  exact (X15_at_most_one_fetch (with_NODE_ENV (Some "test") (serving mockDirectory 0))
           (signedRequest "test-key-1") ragConfig empty_world).
Defined.

(** ** Rendering values *)

Example render_numbers :
  number_to_string 1743465600000 = "1743465600000"
  /\ number_to_string (-42) = "-42"
  /\ number_to_string 999999999999999999999 = "999999999999999999999"
  /\ number_to_string 1000000000000000000000 = "1e+21"
  /\ number_to_string (-1500000000000000000000) = "-1.5e+21".
Proof. vm_compute. repeat split. Qed.

Example render_values :
  to_string (JArray [JNumber 1; JNull; JString "a"; JArray [JBool true; JObject []]])
  = Ret "1,,a,true,[object Object]"
  /\ to_string (JObject [("toString", JNumber 1)])
     = Throw "Cannot convert object to primitive value"
  /\ to_string (JArray [JString "a"; JObject [("toString", JNull)]])
     = Throw "Cannot convert object to primitive value"
  /\ template None = Ret "undefined".
Proof. vm_compute. repeat split. Qed.
